(** * openslides-projector-service: the projector daemon and its HTTP gateway

    A shallow embedding of [cmd/projectord/main.go] and [pkg/http/http.go].

    Go strings are byte strings and are modelled by [string] (a list of
    [ascii] bytes); Go's [int] is modelled by [Z] (the range of the 64-bit
    [int] is written out where the code depends on it: [Atoi]).  Calls into
    collaborators that live outside the two files (the authentication
    service, the HTTP transport, the datastore constructors, the process
    environment) are taken as explicit parameters, and every call the code
    makes on them is recorded in an event trace. *)

From Stdlib Require Import ZArith String Ascii List Bool Lia DecimalString DecimalPos.
Import ListNotations.

Local Open Scope string_scope.
Local Open Scope Z_scope.

(** ** Go values shared by both files *)

(** A Go call returning [(value, error)]. *)
Inductive result (A : Type) : Type :=
| Ok (a : A)
| Err (e : string).
Arguments Ok {A} a.
Arguments Err {A} e.

(** The double-quote byte, and a byte string wrapped in double quotes. *)
Definition dq : string := String (ascii_of_nat 34) "".
Definition quoted (s : string) : string := dq ++ s ++ dq.

(** The line terminator appended by [fmt.Fprintln]. *)
Definition nl : string := String (ascii_of_nat 10) "".

(** ** Package strings, strconv and fmt (the parts the service calls) *)
Module GoStrings.

(** [strings.Contains(s, substr)]: [substr] occurs at some offset of [s]. *)
Fixpoint Contains (s substr : string) : bool :=
  prefix substr s ||
  match s with
  | EmptyString => false
  | String _ s' => Contains s' substr
  end.

(** The scanning loop of [strings.ReplaceAll]: left to right, every
    non-overlapping occurrence of [old] is replaced by [new].  [skip] counts
    the bytes of the occurrence just replaced that are still to be dropped. *)
Fixpoint replaceFrom (old new : string) (skip : nat) (s : string) : string :=
  match s with
  | EmptyString => EmptyString
  | String c s' =>
      match skip with
      | S k => replaceFrom old new k s'
      | O =>
          if prefix old s
          then new ++ replaceFrom old new (Nat.pred (String.length old)) s'
          else String c (replaceFrom old new O s')
      end
  end.

(** [strings.ReplaceAll(s, old, new)] for a non-empty [old], as at both call
    sites of the service.  (For an empty [old] Go inserts [new] at every rune
    boundary; that case is not reached and is left as the identity.) *)
Definition ReplaceAll (s old new : string) : string :=
  match old with
  | EmptyString => s
  | String _ _ => replaceFrom old new O s
  end.

(** The verb [%d] of [fmt.Sprintf] on an [int]: decimal digits, with a
    leading minus sign for negative numbers. *)
Definition formatInt (n : Z) : string := NilZero.string_of_int (Z.to_int n).

(** Bounds of Go's [int] on the 64-bit platforms the service is built for. *)
Definition minInt : Z := - 2 ^ 63.
Definition maxInt : Z := 2 ^ 63 - 1.

Definition isDigit (c : ascii) : bool :=
  (48 <=? Z.of_nat (nat_of_ascii c)) && (Z.of_nat (nat_of_ascii c) <=? 57).

Definition digitValue (c : ascii) : Z := Z.of_nat (nat_of_ascii c) - 48.

(** The digit loop of [strconv.Atoi]: [n = n*10 + int(ch - '0')], failing on
    the first byte that is not a decimal digit. *)
Fixpoint parseDigits (s : string) (n : Z) : option Z :=
  match s with
  | EmptyString => Some n
  | String ch s' =>
      if isDigit ch then parseDigits s' (n * 10 + digitValue ch) else None
  end.

Definition isSign (c : ascii) : bool :=
  Ascii.eqb c "-"%char || Ascii.eqb c "+"%char.

(** [strconv.Atoi(s)]: an optional sign followed by at least one decimal
    digit, and a value that fits Go's [int]; a syntax error or a range error
    otherwise. *)
Definition Atoi (s : string) : result Z :=
  match s with
  | EmptyString => Err "strconv.Atoi: invalid syntax"
  | String c0 rest =>
      let digits := if isSign c0 then rest else s in
      match digits with
      | EmptyString => Err "strconv.Atoi: invalid syntax"
      | String _ _ =>
          match parseDigits digits 0 with
          | None => Err "strconv.Atoi: invalid syntax"
          | Some n =>
              let v := if Ascii.eqb c0 "-"%char then - n else n in
              if (minInt <=? v) && (v <=? maxInt)
              then Ok v
              else Err "strconv.Atoi: value out of range"
          end
      end
  end.

End GoStrings.
Import GoStrings.

(** ** Package net/http (the parts the gateway calls) *)
Module Http.

Definition StatusSwitchingProtocols : Z := 101.
Definition StatusOK : Z := 200.
Definition StatusNoContent : Z := 204.
Definition StatusNotModified : Z := 304.
Definition StatusBadRequest : Z := 400.
Definition StatusUnauthorized : Z := 401.
Definition StatusInternalServerError : Z := 500.

(** The [http.ResponseWriter] the server hands to a handler (the [response]
    of net/http for HTTP/1): whether the final status line is written, the
    final status, the body written so far, and the informational status
    lines (1xx) sent before the final one. *)
Record ResponseWriter : Type := {
  wroteHeader : bool;
  status : Z;
  body : string;
  informational : list Z
}.

Definition newResponseWriter : ResponseWriter :=
  {| wroteHeader := false; status := 0; body := ""; informational := [] |}.

(** [checkWriteHeaderCode]: a status code has three digits. *)
Definition checkWriteHeaderCode (code : Z) : bool :=
  (100 <=? code) && (code <=? 999).

(** A 1xx code other than 101 is sent as an informational header and leaves
    the final status open. *)
Definition isInformational (code : Z) : bool :=
  (100 <=? code) && (code <=? 199) && negb (code =? StatusSwitchingProtocols).

(** [bodyAllowedForStatus]: no body under 1xx, 204 and 304. *)
Definition bodyAllowedForStatus (code : Z) : bool :=
  negb (((100 <=? code) && (code <=? 199))
        || (code =? StatusNoContent) || (code =? StatusNotModified)).

(** [w.WriteHeader(code)]: a superfluous call (the header is written) is
    ignored; otherwise a code outside 100..999 makes the call panic
    ([Err] carries the panic), a 1xx code other than 101 is sent as an
    informational header, and any other code becomes the final status. *)
Definition WriteHeader (code : Z) (w : ResponseWriter) : result ResponseWriter :=
  if wroteHeader w then Ok w
  else if negb (checkWriteHeaderCode code)
  then Err ("invalid WriteHeader code " ++ formatInt code)
  else if isInformational code
  then Ok {| wroteHeader := false; status := status w; body := body w;
             informational := (informational w ++ [code])%list |}
  else Ok {| wroteHeader := true; status := code; body := body w;
             informational := informational w |}.

(** [w.Write(data)]: the first write without a final status sends
    [StatusOK]; no data is no error; under a status that allows no body the
    data is refused with [ErrBodyNotAllowed]; otherwise it is appended.
    Returns the writer and the error. *)
Definition Write (data : string) (w : ResponseWriter)
    : ResponseWriter * option string :=
  let w :=
    if wroteHeader w then w
    else {| wroteHeader := true; status := StatusOK; body := body w;
            informational := informational w |} in
  match data with
  | EmptyString => (w, None)
  | String _ _ =>
      if negb (bodyAllowedForStatus (status w))
      then (w, Some "http: request method or response status code does not allow body")
      else ({| wroteHeader := wroteHeader w; status := status w;
               body := body w ++ data; informational := informational w |},
            None)
  end.

(** [fmt.Fprintln(w, resp)]: the operand followed by a newline, in one
    write. *)
Definition Fprintln (w : ResponseWriter) (resp : string)
    : ResponseWriter * option string :=
  Write (resp ++ nl) w.

(** An [*http.Request]; [Ctx] is the opaque [context.Context]. *)
Record Request (Ctx : Type) : Type := {
  Method : string;
  URL : string;
  Header : list (string * list string);
  Body : string;
  pathValues : list (string * string);
  reqContext : Ctx
}.
Arguments Method {Ctx} _.
Arguments URL {Ctx} _.
Arguments Header {Ctx} _.
Arguments Body {Ctx} _.
Arguments pathValues {Ctx} _.
Arguments reqContext {Ctx} _.

(** [r.PathValue(name)]: the value of the path wildcard, or the empty string. *)
Fixpoint lookupPath (vs : list (string * string)) (name : string) : string :=
  match vs with
  | [] => ""
  | (k, v) :: vs' => if String.eqb k name then v else lookupPath vs' name
  end.

Definition PathValue {Ctx} (r : Request Ctx) (name : string) : string :=
  lookupPath (pathValues r) name.

(** [r.WithContext(ctx)]: a copy of [r] with its context changed. *)
Definition WithContext {Ctx} (r : Request Ctx) (ctx : Ctx) : Request Ctx :=
  {| Method := Method r; URL := URL r; Header := Header r; Body := Body r;
     pathValues := pathValues r; reqContext := ctx |}.

(** An [*http.Response] as the gateway uses it: the status code, what
    [io.ReadAll(resp.Body)] returns (bytes and error) and what
    [resp.Body.Close()] returns. *)
Record Response : Type := {
  StatusCode : Z;
  ReadAll : string * option string;
  Close : option string
}.

(** The outbound side: whether [net/url.Parse] accepts a URL (the only way
    [http.NewRequest] can fail for the constant method POST), and what
    [client.Do] answers for a request. *)
Record Network (Ctx : Type) : Type := {
  urlParses : string -> bool;
  Do : Request Ctx -> result Response
}.
Arguments urlParses {Ctx} _ _.
Arguments Do {Ctx} _ _.

(** [http.NewRequest(method, url, body)], with the background context. *)
Definition NewRequest {Ctx} (net : Network Ctx) (background : Ctx)
    (method url : string) (body : string) : result (Request Ctx) :=
  if urlParses net url
  then Ok {| Method := method; URL := url; Header := []; Body := body;
             pathValues := []; reqContext := background |}
  else Err "net/http: parse error".

Definition setHeader {Ctx} (req : Request Ctx)
    (h : list (string * list string)) : Request Ctx :=
  {| Method := Method req; URL := URL req; Header := h; Body := Body req;
     pathValues := pathValues req; reqContext := reqContext req |}.

End Http.
Import Http.

(** ** pkg/http/http.go *)
Module ProjectorHttp.

(** [auth.Auth] of openslides-go, by the two methods the gateway calls.
    ([Authenticate] also receives [w], on which it may set a header for a
    renewed token; it writes neither status nor body, and headers are not
    part of the writer of the model.) *)
Record Auth (Ctx : Type) : Type := {
  Authenticate : Request Ctx -> result Ctx;
  FromContext : Ctx -> Z
}.
Arguments Authenticate {Ctx} _ _.
Arguments FromContext {Ctx} _ _.

Record ProjectorConfig : Type := {
  RestricterUrl : string
}.

(** What a run of the gateway does besides writing to [w]. *)
Inductive Event (Ctx : Type) : Type :=
| ClientDo (req : Request Ctx)         (* client.Do(req) *)
| ServeHTTP (r : Request Ctx)          (* next.ServeHTTP(w, r) *)
| LogErr (msg : string)                (* log.Err(err).Msg(msg) *)
| Panic (msg : string).                (* a panic that ends the handler *)
Arguments ClientDo {Ctx} req.
Arguments ServeHTTP {Ctx} r.
Arguments LogErr {Ctx} msg.
Arguments Panic {Ctx} msg.

(** The wrapped handler, by what it writes to the response. *)
Definition Handler (Ctx : Type) : Type :=
  ResponseWriter -> Request Ctx -> ResponseWriter.

Record Exchange (Ctx : Type) : Type := {
  response : ResponseWriter;
  trace : list (Event Ctx)
}.
Arguments response {Ctx} _.
Arguments trace {Ctx} _.

(** [writeResponse]: the response text as one line; a write the writer
    refuses is logged.  Returns the writer and the log records. *)
Definition writeResponse {Ctx} (w : ResponseWriter) (resp : string)
    : ResponseWriter * list (Event Ctx) :=
  match Fprintln w resp with
  | (w, Some _) => (w, [LogErr "writing response"])
  | (w, None) => (w, [])
  end.

(** The statements [w.WriteHeader(code); writeResponse(w, resp); return]
    that end four of the error paths of [authMiddleware]; [t] is the trace
    of the run so far.  A panic of [WriteHeader] ends the run on the spot. *)
Definition reject {Ctx} (w : ResponseWriter) (code : Z) (resp : string)
    (t : list (Event Ctx)) : Exchange Ctx :=
  match WriteHeader code w with
  | Err p => {| response := w; trace := (t ++ [Panic p])%list |}
  | Ok w =>
      let (w, wlog) := writeResponse w resp in
      {| response := w; trace := (t ++ wlog)%list |}
  end.

(** The literal [{"error": true, "msg": "<msg>"}] of the error replies. *)
Definition errorJSON (msg : string) : string :=
  "{" ++ quoted "error" ++ ": true, " ++ quoted "msg" ++ ": " ++ quoted msg ++ "}".

(** [fmt.Sprintf] of [[{"collection": "projector", "ids":[%d], "fields": {"id": null}}]]. *)
Definition restrictionBody (id : Z) : string :=
  "[{" ++ quoted "collection" ++ ": " ++ quoted "projector" ++ ", "
       ++ quoted "ids" ++ ":[" ++ formatInt id ++ "], "
       ++ quoted "fields" ++ ": {" ++ quoted "id" ++ ": null}}]".

(** [fmt.Sprintf("%s?user_id=%d&single=1", cfg.RestricterUrl, userID)]. *)
Definition restrictionUrl (cfg : ProjectorConfig) (userID : Z) : string :=
  RestricterUrl cfg ++ "?user_id=" ++ formatInt userID ++ "&single=1".

(** [fmt.Sprintf] of ["projector/%d/id":%d] at [(id, id)]. *)
Definition permissionMarker (id : Z) : string :=
  quoted ("projector/" ++ formatInt id ++ "/id") ++ ":" ++ formatInt id.

Definition isSome {A} (o : option A) : bool :=
  match o with Some _ => true | None => false end.

(** [authMiddleware(next, auth, cfg)] applied to [(w, r)].  [net] is the
    network behind [http.Client{}] and [background] the context of
    [http.NewRequest]. *)
Definition authMiddleware {Ctx} (next : Handler Ctx) (auth : Auth Ctx)
    (cfg : ProjectorConfig) (net : Network Ctx) (background : Ctx)
    (w : ResponseWriter) (r : Request Ctx) : Exchange Ctx :=
  match Authenticate auth r with
  | Err _ =>
      reject w StatusUnauthorized (errorJSON "authenticate request failed") []
  | Ok ctx =>
  match Atoi (PathValue r "id") with
  | Err _ =>
      reject w StatusBadRequest (errorJSON "Projector id invalid") []
  | Ok id =>
  let body := restrictionBody id in
  let userID := FromContext auth ctx in
  let restrictUrl := restrictionUrl cfg userID in
  match NewRequest net background "POST" restrictUrl body with
  | Err _ =>
      let (w, wlog) :=
        writeResponse w (errorJSON "creating restriction request failed") in
      {| response := w; trace := wlog |}
  | Ok req =>
  let req := setHeader req [("Content-Type", ["application/json"])] in
  match Do net req with
  | Err _ =>
      reject w StatusInternalServerError
        (errorJSON "restriction request failed") [ClientDo req]
  | Ok resp =>
  if negb (StatusCode resp =? StatusOK) then
      reject w (StatusCode resp)
        (errorJSON "restriction request failed") [ClientDo req]
  else
  let (b, err) := ReadAll resp in
  if isSome err || negb (Contains b (permissionMarker id)) then
      reject w StatusUnauthorized (errorJSON "permissions denied")
        [ClientDo req]
  else
  let closeLog :=
    match Close resp with
    | Some _ => [LogErr "error closing response body"]
    | None => []
    end in
  {| response := next w (WithContext r ctx);
     trace := ([ClientDo req] ++ closeLog ++ [ServeHTTP (WithContext r ctx)])%list |}
  end end end end.

(** The requests the wrapped handler was invoked with, in order. *)
Fixpoint served {Ctx} (t : list (Event Ctx)) : list (Request Ctx) :=
  match t with
  | [] => []
  | ServeHTTP r :: t' => r :: served t'
  | _ :: t' => served t'
  end.

(** The outbound calls to the restriction service, in order. *)
Fixpoint restrictionCalls {Ctx} (t : list (Event Ctx)) : list (Request Ctx) :=
  match t with
  | [] => []
  | ClientDo req :: t' => req :: restrictionCalls t'
  | _ :: t' => restrictionCalls t'
  end.

End ProjectorHttp.

(** ** cmd/projectord/main.go *)
Module Projectord.

Record config : Type := {
  Bind : string;
  Development : bool;
  PostgresHost : string;
  PostgresPort : string;
  PostgresDatabase : string;
  PostgresUser : string;
  PostgresPasswordFile : string;
  MessageBusHost : string;
  MessageBusPort : string;
  RestricterUrl : string;
  PublicAccessOnly : bool
}.

(** A [flow.Flow] value, by how [run] obtained it. *)
#[local] Set Warnings "-register-all".
Inductive Flow : Type :=
| FlowPostgres                  (* the flow of datastore.NewFlowPostgres *)
| FlowVoteCount                 (* the flow of datastore.NewFlowVoteCount *)
| Combined (defaultFlow : Flow) (keyPrefixToFlow : list (string * Flow)).

(** A [*database.Datastore], by the arguments of [database.New]. *)
Record Datastore : Type := {
  pgAddr : string;
  redisAddr : string;
  dataFlow : Flow
}.

Inductive Level : Type := ErrorLevel | FatalLevel | InfoLevel.

(** Where [log.Logger] writes. *)
Inductive Output : Type := Stdout | Stderr.

(** The calls the process makes on its collaborators, in program order. *)
Inductive RunEvent : Type :=
| NewFlowPostgres
| NewFlowVoteCount
| Combine (defaultFlow : Flow) (keyPrefixToFlow : list (string * Flow))
| GoVoteConnect (timerSeconds : Z) (errHandler : string -> list string)
| ReadFile (file : string)
| DatabaseNew (pgAddr redisAddr : string) (f : Flow)
| ProjectorHttpNew (cfg : ProjectorHttp.ProjectorConfig) (db : Datastore) (ds : Flow)
| Handle (pattern : string)
| ListenAndServe (addr : string)
| Log (out : Output) (level : Level) (msg : string)
| Exit (code : Z).

(** The answers of the collaborators. *)
Record World : Type := {
  envParse : config * option string;             (* env.Parse(&cfg) *)
  newFlowPostgres : option string;               (* error of NewFlowPostgres *)
  readFile : string -> result string;            (* os.ReadFile *)
  databaseNew : string -> string -> Flow -> option string;
  listenAndServe : string -> option string       (* srv.ListenAndServe() *)
}.

(** *** The process monad: the global logger as state, the calls made as
    output, and [os.Exit] as the way computation stops early. *)
Inductive Outcome (A : Type) : Type :=
| Continue (a : A)
| Exited (code : Z).
Arguments Continue {A} a.
Arguments Exited {A} code.

Definition Proc (A : Type) : Type :=
  Output -> Outcome A * Output * list RunEvent.

Definition ret {A} (a : A) : Proc A := fun l => (Continue a, l, []).

Definition bind {A B} (m : Proc A) (f : A -> Proc B) : Proc B :=
  fun l =>
    match m l with
    | (Continue a, l', t) =>
        match f a l' with
        | (o, l'', t') => (o, l'', (t ++ t')%list)
        end
    | (Exited code, l', t) => (Exited code, l', t)
    end.

Notation "x <- m ;; k" := (bind m (fun x => k))
  (at level 61, m at next level, right associativity).
Notation "m ;; k" := (bind m (fun _ => k))
  (at level 61, right associativity).

Definition emit (e : RunEvent) : Proc unit := fun l => (Continue tt, l, [e]).

Definition setLogger (out : Output) : Proc unit := fun _ => (Continue tt, out, []).

Definition logMsg (level : Level) (msg : string) : Proc unit :=
  fun l => (Continue tt, l, [Log l level msg]).

(** [log.Fatal()...Msg(msg)]: the record, then [os.Exit(1)]. *)
Definition logFatal {A} (msg : string) : Proc A :=
  fun l => (Exited 1, l, [Log l FatalLevel msg; Exit 1]).

Definition events {A} (m : Proc A) : list RunEvent := snd (m Stderr).
Definition outcome {A} (m : Proc A) : Outcome A := fst (fst (m Stderr)).

(** *** encodePostgresConfig *)

(** [encodePostgresConfig] encodes a string to be used in the postgres key
    value style. *)
Definition encodePostgresConfig (s : string) : string :=
  let s := ReplaceAll s "\" "\\" in
  let s := ReplaceAll s "'" "\'" in
  s.

(** *** parseSecretsFile *)
Definition parseSecretsFile (W : World) (file : string) : Proc (result string) :=
  emit (ReadFile file) ;;
  match readFile W file with
  | Err err => ret (Err err)
  | Ok content => ret (Ok content)
  end.

(** *** getDatabase *)
Definition getDatabase (W : World) (cfg : config) (dsFlow : Flow)
    : Proc (result Datastore) :=
  r <- parseSecretsFile W (PostgresPasswordFile cfg) ;;
  let password :=
    match r with
    | Ok password => Ok password
    | Err err =>
        if Development cfg then Ok "openslides"
        else Err ("reading password from secrets: " ++ err)
    end in
  match password with
  | Err e => ret (Err e)
  | Ok password =>
      let pgAddr :=
        "user='" ++ encodePostgresConfig (PostgresUser cfg)
        ++ "' password='" ++ encodePostgresConfig password
        ++ "' host='" ++ encodePostgresConfig (PostgresHost cfg)
        ++ "' port='" ++ encodePostgresConfig (PostgresPort cfg)
        ++ "' dbname='" ++ encodePostgresConfig (PostgresDatabase cfg) ++ "'" in
      let redisAddr := MessageBusHost cfg ++ ":" ++ MessageBusPort cfg in
      emit (DatabaseNew pgAddr redisAddr dsFlow) ;;
      match databaseNew W pgAddr redisAddr dsFlow with
      | Some err => ret (Err ("creating datastore: " ++ err))
      | None =>
          ret (Ok {| pgAddr := pgAddr; redisAddr := redisAddr; dataFlow := dsFlow |})
      end
  end.

(** *** run *)

(** The error callback [func(err error) {}] handed to [vote.Connect]: the
    log records it writes for an error. *)
Definition voteErrHandler (err : string) : list string := [].

Definition run (W : World) (cfg : config) : Proc (option string) :=
  emit NewFlowPostgres ;;
  match newFlowPostgres W with
  | Some err => ret (Some ("connecting to datastore: " ++ err))
  | None =>
  let dsFlow := FlowPostgres in
  emit NewFlowVoteCount ;;
  let vote := FlowVoteCount in
  dataFlow <-
    (if negb (PublicAccessOnly cfg) then
       emit (Combine dsFlow [("poll/live_votes", vote)]) ;;
       (* eventer: time.NewTimer(time.Second) *)
       emit (GoVoteConnect 1 voteErrHandler) ;;
       ret (Combined dsFlow [("poll/live_votes", vote)])
     else ret dsFlow) ;;
  r <- getDatabase W cfg dataFlow ;;
  match r with
  | Err err => ret (Some ("connecting to database: " ++ err))
  | Ok ds =>
  emit (ProjectorHttpNew
          {| ProjectorHttp.RestricterUrl := RestricterUrl cfg |} ds dsFlow) ;;
  emit (Handle "/system/projector/static/") ;;
  logMsg InfoLevel ("Starting server on " ++ Bind cfg) ;;
  emit (ListenAndServe (Bind cfg)) ;;
  match listenAndServe W (Bind cfg) with
  | Some _ => logFatal "Could not listen and serve"
  | None => ret None
  end
  end
  end.

(** *** main *)
Definition main (W : World) : Proc unit :=
  let (cfg, err) := envParse W in
  setLogger Stdout ;;
  match err with
  | Some _ => logMsg ErrorLevel "parsing config"
  | None => ret tt
  end ;;
  (if Development cfg then setLogger Stderr else ret tt) ;;
  r <- run W cfg ;;
  match r with
  | Some _ => logFatal "Error during startup"
  | None => ret tt
  end ;;
  logMsg InfoLevel "Stopped".

(** *** The two flows of openslides-go that [run] wires together *)

(** Modelled from the spec: [flow.Combine] is code of openslides-go and not
    part of this repository; section 4.1 (FlowComposer) gives its contract: a
    lookup goes to the override flow whose prefix the key starts with, and to
    the primary flow otherwise.  [pg] and [vote] are the contents of the two
    base flows. *)
Fixpoint flowGet (pg vote : string -> option string) (f : Flow) (key : string)
    : option string :=
  match f with
  | FlowPostgres => pg key
  | FlowVoteCount => vote key
  | Combined d m =>
      (fix route (m : list (string * Flow)) : option string :=
         match m with
         | [] => flowGet pg vote d key
         | (p, o) :: m' =>
             if prefix p key then flowGet pg vote o key else route m'
         end) m
  end.

(** What the refresh loop does, in order. *)
Inductive RefreshEvent : Type :=
| OnTick                        (* the refresh operation is invoked *)
| OnError (err : string)        (* the error callback is invoked *)
| Logged (msg : string)         (* a log record written by the callback *)
| TimerStopped.                 (* the context is cancelled *)

(** Modelled from the spec: the loop of [vote.Connect] is code of
    openslides-go and not part of this repository; section 4.2
    (PeriodicRefresher) gives its contract: on every tick invoke the refresh,
    if it fails invoke the error callback with the failure and continue; stop
    and release the timer when the context is cancelled.  [ticks] lists, for
    every tick before the cancellation, what the refresh returned. *)
Fixpoint Connect (errHandler : string -> list string)
    (ticks : list (option string)) : list RefreshEvent :=
  match ticks with
  | [] => [TimerStopped]
  | refreshed :: ticks' =>
      (OnTick ::
       match refreshed with
       | Some err => OnError err :: map Logged (errHandler err)
       | None => []
       end ++ Connect errHandler ticks')%list
  end.

End Projectord.

(** ** Reference notions the properties are stated against *)

(** The substitution the description of [encodePostgresConfig] speaks of:
    every byte [c] of [s] replaced by the bytes [by]. *)
Fixpoint replaceEach (c : ascii) (by_ : string) (s : string) : string :=
  match s with
  | EmptyString => EmptyString
  | String x s' =>
      (if Ascii.eqb x c then by_ else String x EmptyString) ++ replaceEach c by_ s'
  end.

(** The same encoding byte by byte: a backslash in front of every backslash
    and of every single quote. *)
Definition escapeByte (x : ascii) : string :=
  if Ascii.eqb x "\"%char then "\\"
  else if Ascii.eqb x "'"%char then "\'"
  else String x EmptyString.

Fixpoint escape (s : string) : string :=
  match s with
  | EmptyString => EmptyString
  | String x s' => escapeByte x ++ escape s'
  end.

(** The reader of a quoted value in a key/value connection string (libpq,
    the format the comment of [encodePostgresConfig] points to), entered after
    the opening quote: a backslash takes the next byte literally, a single
    quote that is not escaped ends the value.  It returns the value and the
    rest of the input, and nothing for a value that is not terminated. *)
Fixpoint readQuoted (s : string) (escaped : bool) : option (string * string) :=
  match s with
  | EmptyString => None
  | String c s' =>
      let keep :=
        match readQuoted s' false with
        | Some (v, rest) => Some (String c v, rest)
        | None => None
        end in
      if escaped then keep
      else if Ascii.eqb c "\"%char then readQuoted s' true
      else if Ascii.eqb c "'"%char then Some (EmptyString, s')
      else keep
  end.

(** An optionally signed, non-empty string of decimal digits. *)
Fixpoint allDigits (s : string) : bool :=
  match s with
  | EmptyString => true
  | String c s' => isDigit c && allDigits s'
  end.

Definition isInteger (s : string) : bool :=
  match s with
  | EmptyString => false
  | String c rest =>
      let digits := if isSign c then rest else s in
      match digits with
      | EmptyString => false
      | String _ _ => allDigits digits
      end
  end.

(** The request body as section 6 of the specification spells it: the same
    JSON document as [restrictionBody], without the blanks. *)
Definition compactRestrictionBody (id : Z) : string :=
  "[{" ++ quoted "collection" ++ ":" ++ quoted "projector" ++ ","
       ++ quoted "ids" ++ ":[" ++ formatInt id ++ "],"
       ++ quoted "fields" ++ ":{" ++ quoted "id" ++ ":null}}]".

(** A byte string shown with a single quote in place of every double
    quote. *)
Definition showQuotes (s : string) : string :=
  replaceEach (ascii_of_nat 34) "'" s.

(** The world [W] with another answer of [env.Parse]. *)
Definition withEnvParse (W : Projectord.World)
    (parsed : Projectord.config * option string) : Projectord.World :=
  {| Projectord.envParse := parsed;
     Projectord.newFlowPostgres := Projectord.newFlowPostgres W;
     Projectord.readFile := Projectord.readFile W;
     Projectord.databaseNew := Projectord.databaseNew W;
     Projectord.listenAndServe := Projectord.listenAndServe W |}.

(** Readings of a refresh trace: how often the refresh ran, the failures
    handed to the error callback, and the log records written. *)
Fixpoint refreshes (t : list Projectord.RefreshEvent) : nat :=
  match t with
  | [] => O
  | Projectord.OnTick :: t' => S (refreshes t')
  | _ :: t' => refreshes t'
  end.

Fixpoint reported (t : list Projectord.RefreshEvent) : list string :=
  match t with
  | [] => []
  | Projectord.OnError err :: t' => err :: reported t'
  | _ :: t' => reported t'
  end.

Fixpoint logged (t : list Projectord.RefreshEvent) : list string :=
  match t with
  | [] => []
  | Projectord.Logged msg :: t' => msg :: logged t'
  | _ :: t' => logged t'
  end.

(** The failures among the refresh results of the ticks. *)
Fixpoint failures (ticks : list (option string)) : list string :=
  match ticks with
  | [] => []
  | Some err :: ticks' => err :: failures ticks'
  | None :: ticks' => failures ticks'
  end.

(** ** registerRoutes (pkg/http/http.go) *)
Module Dispatcher.
Import ProjectorHttp.

(** The receiver [projectorHttp], by the fields [registerRoutes] reads: the
    authentication service and the handlers the four methods return (they
    live in other files of the package). *)
Record projectorHttp (Ctx : Type) : Type := {
  auth : Auth Ctx;
  HealthHandler : Handler Ctx;
  ProjectorGetHandler : Handler Ctx;
  ProjectorSubscribeHandler : Handler Ctx;
  ProjectorPreviewHandler : Handler Ctx
}.
Arguments auth {Ctx} _.
Arguments HealthHandler {Ctx} _.
Arguments ProjectorGetHandler {Ctx} _.
Arguments ProjectorSubscribeHandler {Ctx} _.
Arguments ProjectorPreviewHandler {Ctx} _.

(** What the mux holds for a pattern: a handler together with the calls a
    run of it makes. *)
Definition Route (Ctx : Type) : Type :=
  ResponseWriter -> Request Ctx -> Exchange Ctx.

(** A handler registered as it is: serving a request is one call of it. *)
Definition direct {Ctx} (h : Handler Ctx) : Route Ctx :=
  fun w r => {| response := h w r; trace := [ServeHTTP r] |}.

(** [s.registerRoutes(cfg)]: the patterns handed to the mux, in order. *)
Definition registerRoutes {Ctx} (s : projectorHttp Ctx) (cfg : ProjectorConfig)
    (net : Network Ctx) (background : Ctx) : list (string * Route Ctx) :=
  [ ("/system/projector/health", direct (HealthHandler s));
    ("/system/projector/get/{id}",
     authMiddleware (ProjectorGetHandler s) (auth s) cfg net background);
    ("/system/projector/subscribe/{id}",
     authMiddleware (ProjectorSubscribeHandler s) (auth s) cfg net background);
    ("/system/projector/preview/{id}",
     authMiddleware (ProjectorPreviewHandler s) (auth s) cfg net background) ].

End Dispatcher.

(** ** Further reference notions *)

(** The number a string of decimal digits denotes, read from the left with
    the digits read so far in [acc]. *)
Fixpoint uintValue (d : Decimal.uint) (acc : Z) : Z :=
  match d with
  | Decimal.Nil => acc
  | Decimal.D0 l => uintValue l (acc * 10 + 0)
  | Decimal.D1 l => uintValue l (acc * 10 + 1)
  | Decimal.D2 l => uintValue l (acc * 10 + 2)
  | Decimal.D3 l => uintValue l (acc * 10 + 3)
  | Decimal.D4 l => uintValue l (acc * 10 + 4)
  | Decimal.D5 l => uintValue l (acc * 10 + 5)
  | Decimal.D6 l => uintValue l (acc * 10 + 6)
  | Decimal.D7 l => uintValue l (acc * 10 + 7)
  | Decimal.D8 l => uintValue l (acc * 10 + 8)
  | Decimal.D9 l => uintValue l (acc * 10 + 9)
  end.

(** A string without backslash and without single quote. *)
Fixpoint plain (s : string) : bool :=
  match s with
  | EmptyString => true
  | String x s' =>
      negb (Ascii.eqb x "\"%char) && negb (Ascii.eqb x "'"%char) && plain s'
  end.

(** The white space of C's [isspace]. *)
Definition isSpace (c : ascii) : bool :=
  let n := Z.of_nat (nat_of_ascii c) in
  (n =? 32) || ((9 <=? n) && (n <=? 13)).

(** The reader of a key/value connection string (libpq, the format the
    comment of [encodePostgresConfig] points to), as a scanner with one state
    per place in the grammar: blanks before a keyword, the keyword up to the
    equals sign, blanks around the equals sign, and the value, which is either
    bare (ended by white space) or between single quotes; in both kinds of
    value a backslash takes the next byte literally. *)
Inductive ConnState : Type :=
| SkipToKey
| InKey (key : string)
| AfterKey (key : string)
| SkipToValue (key : string)
| InBare (key val : string) (escaped : bool)
| InQuoted (key val : string) (escaped : bool).

Definition snoc (s : string) (c : ascii) : string := s ++ String c EmptyString.

(** The settings a connection string holds, in order; nothing for a string
    that is not well formed (a keyword without equals sign, a quoted value
    that is not terminated). *)
Fixpoint conninfoParse (s : string) (st : ConnState)
    (acc : list (string * string)) : option (list (string * string)) :=
  match s with
  | EmptyString =>
      match st with
      | SkipToKey => Some acc
      | InKey _ | AfterKey _ => None
      | SkipToValue k => Some (acc ++ [(k, EmptyString)])%list
      | InBare k v _ => Some (acc ++ [(k, v)])%list
      | InQuoted _ _ _ => None
      end
  | String c s' =>
      match st with
      | SkipToKey =>
          if isSpace c then conninfoParse s' SkipToKey acc
          else if Ascii.eqb c "="%char then conninfoParse s' (SkipToValue "") acc
          else conninfoParse s' (InKey (String c EmptyString)) acc
      | InKey k =>
          if Ascii.eqb c "="%char then conninfoParse s' (SkipToValue k) acc
          else if isSpace c then conninfoParse s' (AfterKey k) acc
          else conninfoParse s' (InKey (snoc k c)) acc
      | AfterKey k =>
          if isSpace c then conninfoParse s' (AfterKey k) acc
          else if Ascii.eqb c "="%char then conninfoParse s' (SkipToValue k) acc
          else None
      | SkipToValue k =>
          if isSpace c then conninfoParse s' (SkipToValue k) acc
          else if Ascii.eqb c "'"%char then conninfoParse s' (InQuoted k "" false) acc
          else if Ascii.eqb c "\"%char then conninfoParse s' (InBare k "" true) acc
          else conninfoParse s' (InBare k (String c EmptyString) false) acc
      | InBare k v escaped =>
          if escaped then conninfoParse s' (InBare k (snoc v c) false) acc
          else if isSpace c then conninfoParse s' SkipToKey (acc ++ [(k, v)])%list
          else if Ascii.eqb c "\"%char then conninfoParse s' (InBare k v true) acc
          else conninfoParse s' (InBare k (snoc v c) false) acc
      | InQuoted k v escaped =>
          if escaped then conninfoParse s' (InQuoted k (snoc v c) false) acc
          else if Ascii.eqb c "\"%char then conninfoParse s' (InQuoted k v true) acc
          else if Ascii.eqb c "'"%char
               then conninfoParse s' SkipToKey (acc ++ [(k, v)])%list
          else conninfoParse s' (InQuoted k (snoc v c) false) acc
      end
  end.

Definition conninfo (s : string) : option (list (string * string)) :=
  conninfoParse s SkipToKey [].

(** The messages of the error replies of the gateway. *)
Definition gatewayErrors : list string :=
  [ "authenticate request failed"; "Projector id invalid";
    "creating restriction request failed"; "restriction request failed";
    "permissions denied" ].

(** ** Sample inputs *)
Module Sample.
Import ProjectorHttp Projectord.

(** A request for [/system/projector/get/<id>]. *)
Definition getRequest (id : string) : Request unit :=
  {| Method := "GET"; URL := "/system/projector/get/" ++ id; Header := [];
     Body := ""; pathValues := [("id", id)]; reqContext := tt |}.

(** A wrapped handler that answers with a snapshot. *)
Definition snapshot : Handler unit := fun w _ => fst (Write "snapshot" w).

(** Authentication that accepts every request as user 3, and one that
    rejects every request. *)
Definition user3 : Auth unit :=
  {| Authenticate := fun _ => Ok tt; FromContext := fun _ => 3 |}.
Definition noCookie : Auth unit :=
  {| Authenticate := fun _ => Err "no auth cookie"; FromContext := fun _ => 0 |}.

Definition gatewayCfg : ProjectorConfig :=
  {| ProjectorHttp.RestricterUrl := "http://autoupdate:9012/internal/autoupdate" |}.

(** A restricter URL without a scheme: [net/url.Parse] answers
    [missing protocol scheme] for a URL that starts with a colon. *)
Definition brokenCfg : ProjectorConfig :=
  {| ProjectorHttp.RestricterUrl := "://autoupdate:9012/internal/autoupdate" |}.

Definition schemePresent (url : string) : bool := negb (prefix ":" url).

(** Restriction services: one that answers [code] with [content], and one
    that cannot be reached. *)
Definition answers (code : Z) (content : string) : Network unit :=
  {| urlParses := schemePresent;
     Do := fun _ => Ok {| StatusCode := code; ReadAll := (content, None);
                          Close := None |} |}.
Definition unreachable : Network unit :=
  {| urlParses := schemePresent; Do := fun _ => Err "connection refused" |}.

(** The restricted projector 7 as the restriction service returns it. *)
Definition projector7 : string :=
  "{" ++ quoted "projector/7/id" ++ ":7}".

Definition defaults (publicAccessOnly : bool) : config :=
  {| Bind := ":9051"; Development := false; PostgresHost := "localhost";
     PostgresPort := "5432"; PostgresDatabase := "openslides";
     PostgresUser := "openslides";
     PostgresPasswordFile := "/run/secrets/postgres_password";
     MessageBusHost := ""; MessageBusPort := "";
     Projectord.RestricterUrl := ""; PublicAccessOnly := publicAccessOnly |}.

(** A machine on which every collaborator works; [parsed] is what
    [env.Parse] answers, and the listener ends when the process is stopped. *)
Definition healthy (parsed : config * option string) : World :=
  {| envParse := parsed;
     newFlowPostgres := None;
     readFile := fun _ => Ok "secret";
     databaseNew := fun _ _ _ => None;
     listenAndServe := fun _ => Some "http: Server closed" |}.

End Sample.

(** * Properties *)

Import ProjectorHttp.

(** ** The literals of the gateway *)

Example errorJSON_text :
  showQuotes (errorJSON "permissions denied")
  = "{'error': true, 'msg': 'permissions denied'}".
Proof. reflexivity. Qed.

Example restrictionBody_text :
  showQuotes (restrictionBody 7)
  = "[{'collection': 'projector', 'ids':[7], 'fields': {'id': null}}]".
Proof. reflexivity. Qed.

Example compactRestrictionBody_text :
  showQuotes (compactRestrictionBody 7)
  = "[{'collection':'projector','ids':[7],'fields':{'id':null}}]".
Proof. reflexivity. Qed.

Example permissionMarker_text :
  showQuotes (permissionMarker 42) = "'projector/42/id':42".
Proof. reflexivity. Qed.

Example restrictionUrl_text :
  restrictionUrl Sample.gatewayCfg 3
  = "http://autoupdate:9012/internal/autoupdate?user_id=3&single=1".
Proof. reflexivity. Qed.

(** ** The library functions on small inputs *)

Example Atoi_examples :
  Atoi "42" = Ok 42 /\ Atoi "+7" = Ok 7 /\ Atoi "-12" = Ok (-12) /\
  Atoi "007" = Ok 7 /\
  Atoi "9223372036854775807" = Ok maxInt /\
  Atoi "9223372036854775808" = Err "strconv.Atoi: value out of range" /\
  Atoi "abc" = Err "strconv.Atoi: invalid syntax" /\
  Atoi "" = Err "strconv.Atoi: invalid syntax" /\
  Atoi "-" = Err "strconv.Atoi: invalid syntax" /\
  Atoi "1_0" = Err "strconv.Atoi: invalid syntax" /\
  Atoi "7 " = Err "strconv.Atoi: invalid syntax".
Proof. repeat split. Qed.

Example ReplaceAll_examples :
  ReplaceAll "aaaa" "aa" "b" = "bb" /\
  ReplaceAll "abcabc" "bc" "XYZ" = "aXYZaXYZ" /\
  ReplaceAll "it's" "'" "\'" = "it\'s".
Proof. repeat split. Qed.

Example Contains_examples :
  Contains "hello" "ll" = true /\ Contains "hello" "" = true /\
  Contains "he" "hel" = false /\
  Contains Sample.projector7 (permissionMarker 7) = true /\
  Contains Sample.projector7 (permissionMarker 8) = false.
Proof. repeat split. Qed.

Example encodePostgresConfig_examples :
  Projectord.encodePostgresConfig "open'slides" = "open\'slides" /\
  Projectord.encodePostgresConfig "a\b" = "a\\b" /\
  Projectord.encodePostgresConfig "\'" = "\\\'".
Proof. repeat split. Qed.

(** ** encodePostgresConfig *)

Lemma append_assoc (a b c : string) : (a ++ b) ++ c = a ++ (b ++ c).
Proof. induction a as [|x a IH]; simpl; [reflexivity | now rewrite IH]. Qed.

Lemma replaceEach_app (c : ascii) (by_ a b : string) :
  replaceEach c by_ (a ++ b) = replaceEach c by_ a ++ replaceEach c by_ b.
Proof.
  induction a as [|x a IH]; simpl; [reflexivity|].
  now rewrite IH, append_assoc.
Qed.

(** For a pattern of one byte the scanning loop of [ReplaceAll] is the
    byte-wise substitution. *)
Lemma ReplaceAll_byte (c : ascii) (by_ s : string) :
  ReplaceAll s (String c EmptyString) by_ = replaceEach c by_ s.
Proof.
  unfold ReplaceAll.
  induction s as [|x s IH]; [reflexivity|].
  cbn [replaceFrom replaceEach prefix String.length Nat.pred].
  destruct (ascii_dec c x) as [->|Hne].
  - rewrite Ascii.eqb_refl. destruct s; now rewrite <- IH.
  - destruct (Ascii.eqb x c) eqn:E.
    + apply Ascii.eqb_eq in E. congruence.
    + now rewrite IH.
Qed.

Lemma encodePostgresConfig_replaceEach (s : string) :
  Projectord.encodePostgresConfig s
  = replaceEach "'"%char "\'" (replaceEach "\"%char "\\" s).
Proof.
  unfold Projectord.encodePostgresConfig.
  now rewrite !ReplaceAll_byte.
Qed.

Lemma replaceEach_escape (s : string) :
  replaceEach "'"%char "\'" (replaceEach "\"%char "\\" s) = escape s.
Proof.
  induction s as [|x s IH]; [reflexivity|].
  cbn [replaceEach escape]. rewrite replaceEach_app, IH. f_equal.
  unfold escapeByte.
  destruct (Ascii.eqb x "\"%char) eqn:Eb; [reflexivity|].
  cbn [replaceEach]. destruct (Ascii.eqb x "'"%char); reflexivity.
Qed.

Lemma encodePostgresConfig_escape (s : string) :
  Projectord.encodePostgresConfig s = escape s.
Proof. now rewrite encodePostgresConfig_replaceEach, replaceEach_escape. Qed.

(** In an escaped string every single quote stands right after a backslash. *)
Lemma escape_quote_preceded (s : string) (i : nat) :
  String.get i (escape s) = Some "'"%char ->
  exists j, i = S j /\ String.get j (escape s) = Some "\"%char.
Proof.
  revert i. induction s as [|x s IH]; intros i H; [destruct i; discriminate|].
  cbn [escape] in *. unfold escapeByte in *.
  destruct (Ascii.eqb x "\"%char) eqn:Eb.
  - destruct i as [|[|i]]; cbn in H |- *; try discriminate.
    destruct (IH i H) as (j & -> & Hj). exists (S (S j)). split; [reflexivity|exact Hj].
  - destruct (Ascii.eqb x "'"%char) eqn:Eq.
    + destruct i as [|[|i]]; cbn in H |- *; try discriminate.
      * exists O. split; reflexivity.
      * destruct (IH i H) as (j & -> & Hj). exists (S (S j)). split; [reflexivity|exact Hj].
    + destruct i as [|i]; cbn in H |- *.
      * injection H as ->. discriminate.
      * destruct (IH i H) as (j & -> & Hj). exists (S j). split; [reflexivity|exact Hj].
Qed.

(** Reading an escaped value up to its closing quote gives the value back. *)
Lemma readQuoted_escape (s rest : string) :
  readQuoted (escape s ++ "'" ++ rest) false = Some (s, rest).
Proof.
  induction s as [|x s IH]; [reflexivity|].
  cbn [escape]. unfold escapeByte.
  destruct (Ascii.eqb x "\"%char) eqn:Eb.
  - apply Ascii.eqb_eq in Eb. subst x. cbn. cbn in IH. now rewrite IH.
  - destruct (Ascii.eqb x "'"%char) eqn:Eq.
    + apply Ascii.eqb_eq in Eq. subst x. cbn. cbn in IH. now rewrite IH.
    + cbn [append readQuoted]. rewrite Eb, Eq. cbn in IH. now rewrite IH.
Qed.

(** C10. For every [s], [encodePostgresConfig s] is [s] with each backslash
    replaced by two backslashes and then each single quote replaced by
    backslash-quote; hence every single quote of the result stands
    immediately after a backslash, and a reader of the quoted value that
    follows the result by a closing quote stops at that closing quote and
    yields [s]: the value cannot end the quoted literal early. *)
Theorem encodePostgresConfig_quotes_escaped (s : string) :
  Projectord.encodePostgresConfig s
    = replaceEach "'"%char "\'" (replaceEach "\"%char "\\" s)
  /\ (forall i : nat,
        String.get i (Projectord.encodePostgresConfig s) = Some "'"%char ->
        exists j : nat,
          i = S j /\
          String.get j (Projectord.encodePostgresConfig s) = Some "\"%char)
  /\ (forall rest : string,
        readQuoted (Projectord.encodePostgresConfig s ++ "'" ++ rest) false
        = Some (s, rest)).
Proof.
  split; [apply encodePostgresConfig_replaceEach|].
  rewrite encodePostgresConfig_escape. split.
  - intros i. apply escape_quote_preceded.
  - intros rest. apply readQuoted_escape.
Qed.

(** ** strconv.Atoi *)

Lemma parseDigits_allDigits (s : string) (n v : Z) :
  parseDigits s n = Some v -> allDigits s = true.
Proof.
  revert n. induction s as [|c s IH]; intros n H; [reflexivity|].
  cbn [parseDigits allDigits] in *.
  destruct (isDigit c); [|discriminate].
  now rewrite (IH _ H).
Qed.

(** [Atoi] accepts integers only. *)
Lemma Atoi_Ok_isInteger (s : string) (v : Z) :
  Atoi s = Ok v -> isInteger s = true.
Proof.
  unfold Atoi, isInteger. destruct s as [|c0 rest]; [discriminate|].
  destruct (if isSign c0 then rest else String c0 rest) as [|d ds] eqn:E;
    [discriminate|].
  destruct (parseDigits (String d ds) 0) as [n|] eqn:P; [|discriminate].
  intros _. exact (parseDigits_allDigits _ _ _ P).
Qed.

Lemma Atoi_not_integer (s : string) :
  isInteger s = false -> exists e, Atoi s = Err e.
Proof.
  intros H. destruct (Atoi s) as [v|e] eqn:E; [|now exists e].
  apply Atoi_Ok_isInteger in E. congruence.
Qed.

(** The value [Atoi] returns fits Go's [int]. *)
Lemma Atoi_range (s : string) (v : Z) :
  Atoi s = Ok v -> minInt <= v <= maxInt.
Proof.
  unfold Atoi. destruct s as [|c0 rest]; [discriminate|].
  destruct (if isSign c0 then rest else String c0 rest); [discriminate|].
  destruct (parseDigits _ 0); [|discriminate].
  destruct (_ && _) eqn:R; [|discriminate].
  intros [= <-]. apply andb_true_iff in R. lia.
Qed.

(** ** The replies of the gateway, by the class of the status *)

Lemma served_app {Ctx} (a b : list (Event Ctx)) :
  served (a ++ b) = (served a ++ served b)%list.
Proof.
  induction a as [|[req|r|msg|msg] a IH]; cbn; [reflexivity| | | |];
    now rewrite IH.
Qed.

Lemma restrictionCalls_app {Ctx} (a b : list (Event Ctx)) :
  restrictionCalls (a ++ b) = (restrictionCalls a ++ restrictionCalls b)%list.
Proof.
  induction a as [|[req|r|msg|msg] a IH]; cbn; [reflexivity| | | |];
    now rewrite IH.
Qed.

(** Ending a run with an error reply adds neither a call of the restriction
    service nor a call of the wrapped handler. *)
Lemma reject_served {Ctx} (w : ResponseWriter) (code : Z) (msg : string)
    (t : list (Event Ctx)) :
  served (trace (reject w code msg t)) = served t.
Proof.
  unfold reject, writeResponse.
  destruct (WriteHeader code w) as [w'|p]; cbn.
  - destruct (Fprintln w' msg) as [w'' [e|]]; cbn;
      rewrite served_app; cbn; apply app_nil_r.
  - rewrite served_app. cbn. apply app_nil_r.
Qed.

Lemma reject_calls {Ctx} (w : ResponseWriter) (code : Z) (msg : string)
    (t : list (Event Ctx)) :
  restrictionCalls (trace (reject w code msg t)) = restrictionCalls t.
Proof.
  unfold reject, writeResponse.
  destruct (WriteHeader code w) as [w'|p]; cbn.
  - destruct (Fprintln w' msg) as [w'' [e|]]; cbn;
      rewrite restrictionCalls_app; cbn; apply app_nil_r.
  - rewrite restrictionCalls_app. cbn. apply app_nil_r.
Qed.

Lemma line_not_empty (msg : string) : exists c rest, msg ++ nl = String c rest.
Proof. unfold nl. destruct msg; cbn; eauto. Qed.

Lemma WriteHeader_final (code : Z) :
  checkWriteHeaderCode code = true -> isInformational code = false ->
  WriteHeader code newResponseWriter
  = Ok {| wroteHeader := true; status := code; body := "";
          informational := [] |}.
Proof.
  intros Hvalid Hinfo. unfold WriteHeader.
  cbn [newResponseWriter wroteHeader status body informational].
  now rewrite Hvalid, Hinfo.
Qed.

Lemma WriteHeader_informational (code : Z) :
  checkWriteHeaderCode code = true -> isInformational code = true ->
  WriteHeader code newResponseWriter
  = Ok {| wroteHeader := false; status := 0; body := "";
          informational := [code] |}.
Proof.
  intros Hvalid Hinfo. unfold WriteHeader.
  cbn [newResponseWriter wroteHeader status body informational].
  now rewrite Hvalid, Hinfo.
Qed.

(** The line written under a final status on an empty body. *)
Lemma writeResponse_final (Ctx : Type) (code : Z) (msg : string)
    (info : list Z) :
  @writeResponse Ctx
    {| wroteHeader := true; status := code; body := ""; informational := info |}
    msg
  = if bodyAllowedForStatus code
    then ({| wroteHeader := true; status := code; body := msg ++ nl;
             informational := info |}, [])
    else ({| wroteHeader := true; status := code; body := "";
             informational := info |}, [LogErr "writing response"]).
Proof.
  unfold writeResponse, Fprintln, Write.
  destruct (line_not_empty msg) as (c & rest & ->).
  cbn [wroteHeader status body informational].
  destruct (bodyAllowedForStatus code); reflexivity.
Qed.

(** On a fresh writer, a status that allows a body: the status and the
    line. *)
Lemma reject_with_body (Ctx : Type) (msg : string) (t : list (Event Ctx))
    (code : Z) :
  200 <= code <= 999 -> code <> 204 -> code <> 304 ->
  reject newResponseWriter code msg t
  = {| response := {| wroteHeader := true; status := code; body := msg ++ nl;
                      informational := [] |};
       trace := (t ++ [])%list |}.
Proof.
  intros Hrange H204 H304. unfold reject.
  rewrite WriteHeader_final, writeResponse_final.
  - replace (bodyAllowedForStatus code) with true; [reflexivity|].
    unfold bodyAllowedForStatus, StatusNoContent, StatusNotModified.
    replace (code <=? 199) with false by (symmetry; apply Z.leb_gt; lia).
    replace (code =? 204) with false by (symmetry; apply Z.eqb_neq; lia).
    replace (code =? 304) with false by (symmetry; apply Z.eqb_neq; lia).
    now rewrite andb_false_r.
  - unfold checkWriteHeaderCode. apply andb_true_iff.
    split; apply Z.leb_le; lia.
  - unfold isInformational.
    replace (code <=? 199) with false by (symmetry; apply Z.leb_gt; lia).
    now rewrite andb_false_r.
Qed.

(** A status that allows no body: the status, no body, and the log record
    of the refused write. *)
Lemma reject_without_body (Ctx : Type) (msg : string) (t : list (Event Ctx))
    (code : Z) :
  code = 101 \/ code = 204 \/ code = 304 ->
  reject newResponseWriter code msg t
  = {| response := {| wroteHeader := true; status := code; body := "";
                      informational := [] |};
       trace := (t ++ [LogErr "writing response"])%list |}.
Proof.
  intros Hcode. unfold reject.
  rewrite WriteHeader_final, writeResponse_final;
    destruct Hcode as [->|[->| ->]]; reflexivity.
Qed.

(** A 1xx status other than 101: an informational header, then 200 and the
    line. *)
Lemma reject_informational (Ctx : Type) (msg : string) (t : list (Event Ctx))
    (code : Z) :
  100 <= code <= 199 -> code <> 101 ->
  reject newResponseWriter code msg t
  = {| response := {| wroteHeader := true; status := StatusOK;
                      body := msg ++ nl; informational := [code] |};
       trace := (t ++ [])%list |}.
Proof.
  intros Hrange H101. unfold reject.
  rewrite WriteHeader_informational.
  - unfold writeResponse, Fprintln, Write.
    destruct (line_not_empty msg) as (c & rest & ->). reflexivity.
  - unfold checkWriteHeaderCode. apply andb_true_iff.
    split; apply Z.leb_le; lia.
  - unfold isInformational, StatusSwitchingProtocols.
    replace (code =? 101) with false by (symmetry; apply Z.eqb_neq; lia).
    apply andb_true_iff. split; [|reflexivity].
    apply andb_true_iff. split; apply Z.leb_le; lia.
Qed.

(** The line written on a fresh writer goes out under the implicit 200. *)
Lemma writeResponse_fresh (Ctx : Type) (msg : string) :
  @writeResponse Ctx newResponseWriter msg
  = ({| wroteHeader := true; status := StatusOK; body := msg ++ nl;
        informational := [] |}, []).
Proof.
  unfold writeResponse, Fprintln, Write.
  destruct (line_not_empty msg) as (c & rest & ->). reflexivity.
Qed.

(** The classes of status codes cover every code. *)
Lemma status_classes (code : Z) :
  (code < 100 \/ 999 < code) \/
  (100 <= code <= 199 /\ code <> 101) \/
  (code = 101 \/ code = 204 \/ code = 304) \/
  (200 <= code <= 999 /\ code <> 204 /\ code <> 304).
Proof. lia. Qed.

(** A status outside 100..999: [WriteHeader] panics, nothing is written. *)
Lemma reject_panics (Ctx : Type) (msg : string) (t : list (Event Ctx))
    (code : Z) :
  code < 100 \/ 999 < code ->
  reject newResponseWriter code msg t
  = {| response := newResponseWriter;
       trace := (t ++ [Panic ("invalid WriteHeader code " ++ formatInt code)])%list |}.
Proof.
  intros Hout. unfold reject, WriteHeader, checkWriteHeaderCode.
  cbn [newResponseWriter wroteHeader].
  replace ((100 <=? code) && (code <=? 999)) with false; [reflexivity|].
  symmetry. apply andb_false_iff.
  destruct Hout; [left; apply Z.leb_gt|right; apply Z.leb_gt]; lia.
Qed.

(** ** authMiddleware *)

Section Gateway.

Variable Ctx : Type.
Variable next : Handler Ctx.
Variable auth : Auth Ctx.
Variable cfg : ProjectorConfig.
Variable net : Network Ctx.
Variable background : Ctx.

Local Abbreviation gateway :=
  (authMiddleware next auth cfg net background newResponseWriter).

Local Abbreviation jsonContentType := [("Content-Type", ["application/json"])].

(** C2. When authentication fails the gateway answers 401 with the line
    [{"error": true, "msg": "authenticate request failed"}], makes no call to
    the restriction service and does not invoke the wrapped handler. *)
Theorem authentication_failure_rejected (r : Request Ctx) (e : string) :
  Authenticate auth r = Err e ->
  status (response (gateway r)) = StatusUnauthorized /\
  body (response (gateway r)) = errorJSON "authenticate request failed" ++ nl /\
  restrictionCalls (trace (gateway r)) = [] /\
  served (trace (gateway r)) = [].
Proof.
  intros Hauth. unfold authMiddleware. rewrite Hauth.
  repeat split.
Qed.

(** What the gateway does with an id that [Atoi] rejects. *)
Lemma invalid_id_rejected (r : Request Ctx) (ctx : Ctx) (e : string) :
  Authenticate auth r = Ok ctx ->
  Atoi (PathValue r "id") = Err e ->
  status (response (gateway r)) = StatusBadRequest /\
  body (response (gateway r)) = errorJSON "Projector id invalid" ++ nl /\
  trace (gateway r) = [].
Proof.
  intros Hauth Hid. unfold authMiddleware. rewrite Hauth, Hid.
  repeat split.
Qed.

(** C6 (as the code has it). For every request that passes authentication
    and whose id path segment is not an integer, the gateway answers 400 with
    the line [{"error": true, "msg": "Projector id invalid"}], and neither
    calls the restriction service nor invokes the wrapped handler. *)
Theorem non_integer_id_rejected (r : Request Ctx) (ctx : Ctx) :
  Authenticate auth r = Ok ctx ->
  isInteger (PathValue r "id") = false ->
  status (response (gateway r)) = StatusBadRequest /\
  body (response (gateway r)) = errorJSON "Projector id invalid" ++ nl /\
  restrictionCalls (trace (gateway r)) = [] /\
  served (trace (gateway r)) = [].
Proof.
  intros Hauth Hid. destruct (Atoi_not_integer _ Hid) as [e He].
  destruct (invalid_id_rejected r ctx e Hauth He) as (Hs & Hb & Ht).
  rewrite Hs, Hb, Ht. repeat split.
Qed.

(** When the outbound request cannot be constructed, the reply carries the
    error line but no status is set, so it goes out as 200. *)
Lemma construction_failure_reply (r : Request Ctx) (ctx : Ctx) (id : Z) :
  Authenticate auth r = Ok ctx ->
  Atoi (PathValue r "id") = Ok id ->
  urlParses net (restrictionUrl cfg (FromContext auth ctx)) = false ->
  status (response (gateway r)) = StatusOK /\
  body (response (gateway r))
    = errorJSON "creating restriction request failed" ++ nl /\
  trace (gateway r) = [].
Proof.
  intros Hauth Hid Hurl. unfold authMiddleware, NewRequest.
  rewrite Hauth, Hid, Hurl. repeat split.
Qed.

(** When sending the outbound request fails, the gateway answers 500 and
    does not invoke the wrapped handler. *)
Lemma send_failure_reply (r : Request Ctx) (ctx : Ctx) (id : Z)
    (req : Request Ctx) (e : string) :
  Authenticate auth r = Ok ctx ->
  Atoi (PathValue r "id") = Ok id ->
  NewRequest net background "POST"
    (restrictionUrl cfg (FromContext auth ctx)) (restrictionBody id) = Ok req ->
  Do net (setHeader req jsonContentType) = Err e ->
  status (response (gateway r)) = StatusInternalServerError /\
  body (response (gateway r)) = errorJSON "restriction request failed" ++ nl /\
  served (trace (gateway r)) = [].
Proof.
  intros Hauth Hid Hnew Hdo. unfold authMiddleware.
  rewrite Hauth, Hid, Hnew, Hdo. repeat split.
Qed.

(** C5 (as the code has it). For every answer of the restriction service
    whose status is not 200 the wrapped handler is not invoked.  When the
    status is between 200 and 999 and is neither 204 nor 304, the gateway
    answers with that same status and the line
    [{"error": true, "msg": "restriction request failed"}].  For 101, 204
    and 304 it answers with that same status and no body: the writer refuses
    the line and the refusal is logged.  A 1xx status other than 101 goes out
    as an informational header, followed by 200 and the line; for a status
    outside 100..999 [WriteHeader] panics and nothing is written. *)
Theorem restriction_status_propagated (r : Request Ctx) (ctx : Ctx) (id : Z)
    (req : Request Ctx) (resp : Response) :
  Authenticate auth r = Ok ctx ->
  Atoi (PathValue r "id") = Ok id ->
  NewRequest net background "POST"
    (restrictionUrl cfg (FromContext auth ctx)) (restrictionBody id) = Ok req ->
  Do net (setHeader req jsonContentType) = Ok resp ->
  StatusCode resp <> StatusOK ->
  served (trace (gateway r)) = [] /\
  (200 <= StatusCode resp <= 999 ->
   StatusCode resp <> StatusNoContent ->
   StatusCode resp <> StatusNotModified ->
   status (response (gateway r)) = StatusCode resp /\
   body (response (gateway r)) = errorJSON "restriction request failed" ++ nl /\
   trace (gateway r) = [ClientDo (setHeader req jsonContentType)]) /\
  (StatusCode resp = StatusSwitchingProtocols \/
   StatusCode resp = StatusNoContent \/
   StatusCode resp = StatusNotModified ->
   status (response (gateway r)) = StatusCode resp /\
   body (response (gateway r)) = "" /\
   trace (gateway r)
     = [ClientDo (setHeader req jsonContentType); LogErr "writing response"]) /\
  (100 <= StatusCode resp <= 199 ->
   StatusCode resp <> StatusSwitchingProtocols ->
   informational (response (gateway r)) = [StatusCode resp] /\
   status (response (gateway r)) = StatusOK /\
   body (response (gateway r)) = errorJSON "restriction request failed" ++ nl) /\
  (StatusCode resp < 100 \/ 999 < StatusCode resp ->
   wroteHeader (response (gateway r)) = false /\
   body (response (gateway r)) = "" /\
   exists p,
     trace (gateway r) = [ClientDo (setHeader req jsonContentType); Panic p]).
Proof.
  intros Hauth Hid Hnew Hdo Hcode. unfold authMiddleware.
  rewrite Hauth, Hid, Hnew, Hdo.
  apply Z.eqb_neq in Hcode. rewrite Hcode. cbn [negb]. cbv iota.
  rewrite reject_served.
  unfold StatusSwitchingProtocols, StatusNoContent, StatusNotModified.
  split; [reflexivity|]. split; [|split; [|split]].
  - intros Hrange H204 H304.
    rewrite (reject_with_body _ _ _ (StatusCode resp)); [repeat split|lia|lia|lia].
  - intros Hno.
    rewrite (reject_without_body _ _ _ (StatusCode resp));
      [repeat split|exact Hno].
  - intros Hrange H101.
    rewrite (reject_informational _ _ _ (StatusCode resp));
      [repeat split|lia|exact H101].
  - intros Hout.
    rewrite (reject_panics _ _ _ (StatusCode resp)); [|exact Hout].
    repeat split. eexists. reflexivity.
Qed.


(** The digits [%d] prints contain no blank. *)
Lemma uint_digits_no_blank (d : Decimal.uint) :
  replaceEach " "%char "" (NilEmpty.string_of_uint d) = NilEmpty.string_of_uint d.
Proof. induction d; cbn; congruence. Qed.

Lemma formatInt_no_blank (n : Z) :
  replaceEach " "%char "" (formatInt n) = formatInt n.
Proof.
  unfold formatInt, NilZero.string_of_int, NilZero.string_of_uint.
  destruct (Z.to_int n) as [d|d]; destruct d; cbn;
    try reflexivity; now rewrite uint_digits_no_blank.
Qed.

(** Without its blanks, the body the gateway sends is the compact document. *)
Lemma restrictionBody_compact (id : Z) :
  replaceEach " "%char "" (restrictionBody id) = compactRestrictionBody id.
Proof.
  unfold restrictionBody, compactRestrictionBody.
  rewrite !replaceEach_app, formatInt_no_blank. reflexivity.
Qed.

(** C7 (as the code has it). For every authenticated request with an integer
    id for which the outbound request can be constructed, the gateway makes
    one call to the restriction service: a POST to
    [<restricterUrl>?user_id=<callerId>&single=1] whose only header is
    [Content-Type: application/json] and whose body is
    [[{"collection": "projector", "ids":[<id>], "fields": {"id": null}}]],
    which is the document
    [[{"collection":"projector","ids":[<id>],"fields":{"id":null}}]] written
    with blanks. *)
Theorem restriction_call_shape (r : Request Ctx) (ctx : Ctx) (id : Z) :
  Authenticate auth r = Ok ctx ->
  Atoi (PathValue r "id") = Ok id ->
  urlParses net (restrictionUrl cfg (FromContext auth ctx)) = true ->
  exists req : Request Ctx,
    restrictionCalls (trace (gateway r)) = [req] /\
    Method req = "POST" /\
    URL req
      = RestricterUrl cfg ++ "?user_id=" ++ formatInt (FromContext auth ctx)
        ++ "&single=1" /\
    Header req = [("Content-Type", ["application/json"])] /\
    Body req
      = "[{" ++ quoted "collection" ++ ": " ++ quoted "projector" ++ ", "
        ++ quoted "ids" ++ ":[" ++ formatInt id ++ "], "
        ++ quoted "fields" ++ ": {" ++ quoted "id" ++ ": null}}]" /\
    replaceEach " "%char "" (Body req) = compactRestrictionBody id.
Proof.
  intros Hauth Hid Hurl.
  eexists. split; [|split; [|split; [|split; [|split]]]].
  - unfold authMiddleware, NewRequest. rewrite Hauth, Hid, Hurl.
    destruct (Do net _) as [resp|e]; [|rewrite reject_calls; reflexivity].
    destruct (negb _); [rewrite reject_calls; reflexivity|].
    destruct (ReadAll resp) as [b err].
    destruct (_ || _); [rewrite reject_calls; reflexivity|].
    destruct (Close resp); reflexivity.
  - reflexivity.
  - reflexivity.
  - reflexivity.
  - reflexivity.
  - apply restrictionBody_compact.
Qed.

End Gateway.

(** ** The gateway on the sample requests *)

Ltac by_running := vm_compute; repeat split; try discriminate; try reflexivity.

(** C3. With a restricter URL that [http.NewRequest] cannot parse, an
    authenticated request for projector 7 is answered with the line
    [{"error": true, "msg": "creating restriction request failed"}] and the
    wrapped handler is not invoked, but no status is written: the reply goes
    out as 200, not as a server error. *)
Theorem construction_failure_replies_200 :
  let out := authMiddleware Sample.snapshot Sample.user3 Sample.brokenCfg
               (Sample.answers 200 Sample.projector7) tt newResponseWriter
               (Sample.getRequest "7") in
  status (response out) = StatusOK /\
  status (response out) <> StatusInternalServerError /\
  body (response out) = errorJSON "creating restriction request failed" ++ nl /\
  restrictionCalls (trace out) = [] /\
  served (trace out) = [].
Proof. by_running. Qed.

(** The sibling path: an unreachable restriction service gives 500. *)
Example send_failure_replies_500 :
  status (response (authMiddleware Sample.snapshot Sample.user3 Sample.gatewayCfg
                      Sample.unreachable tt newResponseWriter
                      (Sample.getRequest "7")))
  = StatusInternalServerError.
Proof. reflexivity. Qed.


Lemma authentication_failure_rejected_witness :
  let r := Sample.getRequest "42" in
  let out := authMiddleware Sample.snapshot Sample.noCookie Sample.gatewayCfg
               (Sample.answers 200 Sample.projector7) tt newResponseWriter r in
  Authenticate Sample.noCookie r = Err "no auth cookie" /\
  status (response out) = StatusUnauthorized /\
  body (response out) = errorJSON "authenticate request failed" ++ nl /\
  restrictionCalls (trace out) = [] /\
  served (trace out) = [].
Proof.
  split; [reflexivity|].
  exact (authentication_failure_rejected unit Sample.snapshot Sample.noCookie
           Sample.gatewayCfg (Sample.answers 200 Sample.projector7) tt
           (Sample.getRequest "42") "no auth cookie" eq_refl).
Defined.

(** C5 as stated fails: a 204 of the restriction service is passed on as
    204, under which the writer refuses the failure line: the reply has no
    body and the refused write is logged. *)
Lemma no_content_status_without_body :
  let out := authMiddleware Sample.snapshot Sample.user3 Sample.gatewayCfg
               (Sample.answers 204 "") tt newResponseWriter
               (Sample.getRequest "7") in
  status (response out) = StatusNoContent /\
  body (response out) = "" /\
  body (response out) <> errorJSON "restriction request failed" ++ nl /\
  In (LogErr "writing response") (trace out) /\
  served (trace out) = [].
Proof. by_running. right. left. reflexivity. Qed.

Lemma restriction_status_propagated_witness :
  let out := authMiddleware Sample.snapshot Sample.user3 Sample.gatewayCfg
               (Sample.answers 403 "") tt newResponseWriter
               (Sample.getRequest "7") in
  served (trace out) = [] /\
  status (response out) = 403 /\
  body (response out) = errorJSON "restriction request failed" ++ nl.
Proof.
  assert (Hne : 403 <> StatusOK) by discriminate.
  destruct (restriction_status_propagated unit Sample.snapshot Sample.user3
              Sample.gatewayCfg (Sample.answers 403 "") tt
              (Sample.getRequest "7") tt 7
              {| Method := "POST";
                 URL := restrictionUrl Sample.gatewayCfg 3;
                 Header := []; Body := restrictionBody 7;
                 pathValues := []; reqContext := tt |}
              {| StatusCode := 403; ReadAll := ("", None); Close := None |}
              eq_refl eq_refl eq_refl eq_refl Hne) as (Hserved & Hbody & _).
  destruct Hbody as (Hstatus & Hline & _);
    [cbn; lia | discriminate | discriminate |].
  exact (conj Hserved (conj Hstatus Hline)).
Defined.

(** C6 as stated fails: a request whose id is not an integer and that is not
    authenticated is answered 401, not 400. *)
Lemma non_integer_id_unauthenticated_401 :
  let r := Sample.getRequest "abc" in
  let out := authMiddleware Sample.snapshot Sample.noCookie Sample.gatewayCfg
               (Sample.answers 200 Sample.projector7) tt newResponseWriter r in
  isInteger (PathValue r "id") = false /\
  status (response out) = StatusUnauthorized /\
  status (response out) <> StatusBadRequest /\
  body (response out) = errorJSON "authenticate request failed" ++ nl.
Proof. by_running. Qed.

Lemma non_integer_id_rejected_witness :
  let r := Sample.getRequest "abc" in
  let out := authMiddleware Sample.snapshot Sample.user3 Sample.gatewayCfg
               (Sample.answers 200 Sample.projector7) tt newResponseWriter r in
  isInteger (PathValue r "id") = false /\
  status (response out) = StatusBadRequest /\
  body (response out) = errorJSON "Projector id invalid" ++ nl /\
  restrictionCalls (trace out) = [] /\
  served (trace out) = [].
Proof.
  split; [reflexivity|].
  exact (non_integer_id_rejected unit Sample.snapshot Sample.user3
           Sample.gatewayCfg (Sample.answers 200 Sample.projector7) tt
           (Sample.getRequest "abc") tt eq_refl eq_refl).
Defined.

(** C7 as stated fails: the body sent for projector 7 is not the compact
    document; it has a blank after three of the colons and after both
    commas. *)
Lemma restriction_body_has_blanks :
  let out := authMiddleware Sample.snapshot Sample.user3 Sample.gatewayCfg
               (Sample.answers 200 Sample.projector7) tt newResponseWriter
               (Sample.getRequest "7") in
  exists req : Request unit,
    restrictionCalls (trace out) = [req] /\
    Body req <> compactRestrictionBody 7 /\
    String.length (Body req) = (String.length (compactRestrictionBody 7) + 5)%nat.
Proof. eexists. by_running. Qed.

Lemma restriction_call_shape_witness :
  let r := Sample.getRequest "7" in
  let out := authMiddleware Sample.snapshot Sample.user3 Sample.gatewayCfg
               (Sample.answers 200 Sample.projector7) tt newResponseWriter r in
  exists req : Request unit,
    restrictionCalls (trace out) = [req] /\
    Method req = "POST" /\
    URL req = "http://autoupdate:9012/internal/autoupdate?user_id=3&single=1" /\
    Header req = [("Content-Type", ["application/json"])] /\
    Body req
      = "[{" ++ quoted "collection" ++ ": " ++ quoted "projector" ++ ", "
        ++ quoted "ids" ++ ":[7], "
        ++ quoted "fields" ++ ": {" ++ quoted "id" ++ ": null}}]" /\
    replaceEach " "%char "" (Body req) = compactRestrictionBody 7.
Proof.
  exact (restriction_call_shape unit Sample.snapshot Sample.user3
           Sample.gatewayCfg (Sample.answers 200 Sample.projector7) tt
           (Sample.getRequest "7") tt 7 eq_refl eq_refl eq_refl).
Defined.

(** ** run and main *)

Import Projectord.

Ltac run_step :=
  match goal with
  | |- context [match newFlowPostgres ?W with _ => _ end] =>
      destruct (newFlowPostgres W) eqn:?
  | |- context [PublicAccessOnly ?c] =>
      destruct (PublicAccessOnly c) eqn:?
  | |- context [match readFile ?W ?f with _ => _ end] =>
      destruct (readFile W f) eqn:?
  | |- context [Development ?c] =>
      destruct (Development c) eqn:?
  | |- context [match databaseNew ?W ?a ?b ?f with _ => _ end] =>
      destruct (databaseNew W a b f) eqn:?
  | |- context [match listenAndServe ?W ?a with _ => _ end] =>
      destruct (listenAndServe W a) eqn:?
  end.

(** Runs the process symbolically, splitting on every answer of the world. *)
Ltac run_cases :=
  unfold events, outcome, main, run, getDatabase, parseSecretsFile, bind, emit,
    ret, logMsg, logFatal, setLogger;
  cbn -[String.append encodePostgresConfig];
  repeat (run_step; cbn -[String.append encodePostgresConfig]).

Ltac in_cases :=
  repeat match goal with
         | H : In _ _ |- _ => cbn [In] in H
         | H : _ \/ _ |- _ => destruct H
         | H : False |- _ => contradiction
         end.

Lemma run_refresher (W : World) (cfg : config) (secs : Z)
    (h : string -> list string) :
  In (GoVoteConnect secs h) (events (run W cfg)) ->
  secs = 1 /\ h = voteErrHandler /\ PublicAccessOnly cfg = false.
Proof.
  run_cases; intros H; in_cases; try discriminate;
    match goal with
    | H : GoVoteConnect _ _ = GoVoteConnect _ _ |- _ =>
        injection H as <- <-; repeat split
    end.
Qed.

(** C4 as stated fails: with the public-access-only flag enabled the
    override flow is constructed all the same; [NewFlowVoteCount] is called
    before the flag is looked at. *)
Lemma public_access_only_constructs_vote_flow :
  let cfg := Sample.defaults true in
  PublicAccessOnly cfg = true /\
  In NewFlowVoteCount (events (run (Sample.healthy (cfg, None)) cfg)).
Proof. by_running. right. left. reflexivity. Qed.

(** C4 (as the code has it). With the public-access-only flag enabled, the
    override flow is constructed once the datastore is connected, but it is
    never registered and never connected: no combined flow is built, no
    periodic refresher is started, and the flow handed to the database layer
    and to the HTTP layer is the primary flow itself, so a lookup of any key
    gives what the primary flow gives. *)
Theorem public_access_only_serves_primary (W : World) (cfg : config) :
  PublicAccessOnly cfg = true ->
  (newFlowPostgres W = None -> In NewFlowVoteCount (events (run W cfg))) /\
  (forall d m, ~ In (Combine d m) (events (run W cfg))) /\
  (forall secs h, ~ In (GoVoteConnect secs h) (events (run W cfg))) /\
  (forall pg rd f,
      In (DatabaseNew pg rd f) (events (run W cfg)) -> f = FlowPostgres) /\
  (forall c db ds,
      In (ProjectorHttpNew c db ds) (events (run W cfg)) ->
      dataFlow db = FlowPostgres /\ ds = FlowPostgres /\
      forall content votes key,
        flowGet content votes (dataFlow db) key
        = flowGet content votes FlowPostgres key).
Proof.
  intros Hflag. split; [|split; [|split; [|split]]].
  - run_cases; intros Hpg; try discriminate; cbn [In]; auto.
  - intros d m. run_cases; intros H; in_cases; discriminate.
  - intros secs h H. apply run_refresher in H. destruct H as (_ & _ & H).
    congruence.
  - intros pg rd f. revert Hflag. run_cases; intros Hflag H; in_cases;
      try discriminate; congruence.
  - intros c db ds. revert Hflag. run_cases; intros Hflag H; in_cases;
      try discriminate;
      match goal with
      | H : ProjectorHttpNew _ _ _ = ProjectorHttpNew _ _ _ |- _ =>
          injection H as <- <- <-; repeat split
      end.
Qed.

(** The spec-modelled loop: the refresh runs on every tick, every failure
    reaches the error callback, and what is logged is what the callback
    writes. *)
Lemma Connect_refreshes (h : string -> list string)
    (ticks : list (option string)) :
  refreshes (Connect h ticks) = List.length ticks.
Proof.
  induction ticks as [|[err|] ticks IH]; cbn; [reflexivity| |now rewrite IH].
  f_equal. rewrite <- IH. clear IH.
  induction (h err) as [|m ms IHm]; cbn; [reflexivity|exact IHm].
Qed.

Lemma Connect_reported (h : string -> list string)
    (ticks : list (option string)) :
  reported (Connect h ticks) = failures ticks.
Proof.
  induction ticks as [|[err|] ticks IH]; cbn; [reflexivity| |exact IH].
  f_equal. rewrite <- IH. clear IH.
  induction (h err) as [|m ms IHm]; cbn; [reflexivity|exact IHm].
Qed.

Lemma Connect_silent (ticks : list (option string)) :
  logged (Connect voteErrHandler ticks) = [].
Proof. induction ticks as [|[err|] ticks IH]; cbn; auto. Qed.

(** C8 as stated fails: the refresher that [run] starts does not log a
    failed refresh; its error callback receives the failure and drops it. *)
Lemma failed_refresh_not_logged :
  let cfg := Sample.defaults false in
  In (GoVoteConnect 1 voteErrHandler)
     (events (run (Sample.healthy (cfg, None)) cfg)) /\
  Connect voteErrHandler [Some "fetching votes failed"]
    = [OnTick; OnError "fetching votes failed"; TimerStopped] /\
  logged (Connect voteErrHandler [Some "fetching votes failed"]) = [].
Proof. by_running. do 3 right. left. reflexivity. Qed.

(** C8 (as the code has it). For the refresher that [run] starts, and every
    sequence of ticks before the cancellation: the refresh runs once per tick
    whether or not earlier ones failed, every failure is handed to the error
    callback, and nothing is logged, the callback being empty. *)
Theorem refresh_failures_dropped (W : World) (cfg : config) (secs : Z)
    (h : string -> list string) (ticks : list (option string)) :
  In (GoVoteConnect secs h) (events (run W cfg)) ->
  refreshes (Connect h ticks) = List.length ticks /\
  reported (Connect h ticks) = failures ticks /\
  logged (Connect h ticks) = [].
Proof.
  intros H. apply run_refresher in H. destruct H as (_ & -> & _).
  split; [apply Connect_refreshes|].
  split; [apply Connect_reported|apply Connect_silent].
Qed.

Lemma refresh_failures_dropped_witness :
  let cfg := Sample.defaults false in
  let ticks := [None; Some "fetching votes failed"; None] in
  refreshes (Connect voteErrHandler ticks) = 3%nat /\
  reported (Connect voteErrHandler ticks) = ["fetching votes failed"] /\
  logged (Connect voteErrHandler ticks) = [].
Proof.
  refine (refresh_failures_dropped
            (Sample.healthy (Sample.defaults false, None))
            (Sample.defaults false) 1 voteErrHandler
            [None; Some "fetching votes failed"; None] _).
  vm_compute. do 3 right. left. reflexivity.
Defined.

Lemma public_access_only_serves_primary_witness :
  let cfg := Sample.defaults true in
  let t := events (run (Sample.healthy (cfg, None)) cfg) in
  PublicAccessOnly cfg = true /\
  (forall d m, ~ In (Combine d m) t) /\
  (forall secs h, ~ In (GoVoteConnect secs h) t) /\
  (forall pg rd f, In (DatabaseNew pg rd f) t -> f = FlowPostgres).
Proof.
  split; [reflexivity|].
  destruct (public_access_only_serves_primary
              (Sample.healthy (Sample.defaults true, None))
              (Sample.defaults true) eq_refl) as (_ & Hc & Hg & Hd & _).
  exact (conj Hc (conj Hg Hd)).
Defined.

(** C9 as stated fails: with a configuration that does not parse and
    collaborators that work, the failure is logged and the server is
    started. *)
Lemma parse_failure_server_started :
  let W := Sample.healthy (Sample.defaults false, Some "parse error") in
  snd (envParse W) = Some "parse error" /\
  hd_error (events (main W)) = Some (Log Stdout ErrorLevel "parsing config") /\
  In (ListenAndServe ":9051") (events (main W)).
Proof. by_running. do 10 right. left. reflexivity. Qed.

(** C9 (as the code has it). When parsing the configuration fails, the
    failure is logged and startup goes on with the configuration [env.Parse]
    left behind: after the log record the process does what it does for that
    configuration when parsing succeeds, and ends the same way. *)
Theorem parse_failure_only_logged (W : World) (cfg : config) (err : string) :
  envParse W = (cfg, Some err) ->
  events (main W)
    = Log Stdout ErrorLevel "parsing config"
      :: events (main (withEnvParse W (cfg, None))) /\
  outcome (main W) = outcome (main (withEnvParse W (cfg, None))).
Proof.
  intros Hparse. unfold events, outcome, main. rewrite Hparse.
  cbn [withEnvParse envParse].
  change (run (withEnvParse W (cfg, None)) cfg) with (run W cfg).
  unfold bind, setLogger, logMsg, ret.
  destruct (Development cfg);
    destruct (run W cfg _) as [[[r|code] l] t]; cbn; try (split; reflexivity);
    destruct r; cbn; split; reflexivity.
Qed.

Lemma parse_failure_only_logged_witness :
  let cfg := Sample.defaults false in
  let W := Sample.healthy (cfg, Some "parse error") in
  envParse W = (cfg, Some "parse error") /\
  events (main W)
    = Log Stdout ErrorLevel "parsing config"
      :: events (main (withEnvParse W (cfg, None))) /\
  outcome (main W) = outcome (main (withEnvParse W (cfg, None))).
Proof.
  split; [reflexivity|].
  exact (parse_failure_only_logged
           (Sample.healthy (Sample.defaults false, Some "parse error"))
           (Sample.defaults false) "parse error" eq_refl).
Defined.

(** * Further properties *)

(** ** strconv.Atoi and the verb %d *)

Lemma parseDigits_uint (d : Decimal.uint) (acc : Z) :
  parseDigits (NilEmpty.string_of_uint d) acc = Some (uintValue d acc).
Proof.
  revert acc. induction d; intros acc;
    cbn [parseDigits NilEmpty.string_of_uint uintValue];
    [reflexivity | exact (IHd _) ..].
Qed.

Lemma uintValue_pos (d : Decimal.uint) (p : positive) :
  uintValue d (Z.pos p) = Z.pos (Pos.of_uint_acc d p).
Proof.
  revert p. induction d; intros p; cbn [uintValue Pos.of_uint_acc];
    [reflexivity| ..];
    match goal with
    | |- uintValue _ ?a = Z.pos (Pos.of_uint_acc _ ?b) =>
        replace a with (Z.pos b) by lia; apply IHd
    end.
Qed.

Lemma uintValue_0 (d : Decimal.uint) :
  uintValue d 0 = Z.of_N (Pos.of_uint d).
Proof.
  induction d; cbn [uintValue Pos.of_uint Z.of_N]; try reflexivity;
    change (0 * 10 + 0) with 0; try assumption;
    match goal with
    | |- uintValue _ ?a = _ =>
        let v := eval cbv in (Z.to_pos a) in
        change a with (Z.pos v); apply uintValue_pos
    end.
Qed.

(** The digits of a positive number denote it. *)
Lemma parseDigits_positive (p : positive) :
  parseDigits (NilEmpty.string_of_uint (Pos.to_uint p)) 0 = Some (Z.pos p).
Proof.
  rewrite parseDigits_uint, uintValue_0, DecimalPos.Unsigned.of_to.
  reflexivity.
Qed.

(** The digits of a positive number are not empty and start with a digit. *)
Lemma positive_digits_head (p : positive) :
  exists c rest,
    NilEmpty.string_of_uint (Pos.to_uint p) = String c rest /\
    isSign c = false.
Proof.
  pose proof (DecimalPos.Unsigned.to_uint_nonnil p) as Hnil.
  destruct (Pos.to_uint p); [congruence| ..]; cbn; eauto.
Qed.

Lemma formatInt_positive (p : positive) :
  formatInt (Z.pos p) = NilEmpty.string_of_uint (Pos.to_uint p).
Proof.
  unfold formatInt. cbn [Z.to_int NilZero.string_of_int].
  unfold NilZero.string_of_uint.
  pose proof (DecimalPos.Unsigned.to_uint_nonnil p) as Hnil.
  destruct (Pos.to_uint p); [congruence| ..]; reflexivity.
Qed.

Lemma formatInt_negative (p : positive) :
  formatInt (Z.neg p) = String "-" (NilEmpty.string_of_uint (Pos.to_uint p)).
Proof.
  unfold formatInt. cbn [Z.to_int NilZero.string_of_int].
  unfold NilZero.string_of_uint.
  pose proof (DecimalPos.Unsigned.to_uint_nonnil p) as Hnil.
  destruct (Pos.to_uint p); [congruence| ..]; reflexivity.
Qed.

(** What [Atoi] makes of the decimal form of any number: the number itself
    when it fits [int], a range error otherwise. *)
Lemma Atoi_formatInt_cases (n : Z) :
  Atoi (formatInt n)
  = if (minInt <=? n) && (n <=? maxInt) then Ok n
    else Err "strconv.Atoi: value out of range".
Proof.
  destruct n as [|p|p].
  - reflexivity.
  - rewrite formatInt_positive.
    destruct (positive_digits_head p) as (c & rest & E & Hsign).
    pose proof (parseDigits_positive p) as P. rewrite E in *.
    unfold Atoi. rewrite Hsign, P.
    unfold isSign in Hsign. apply orb_false_iff in Hsign as [-> _].
    reflexivity.
  - rewrite formatInt_negative.
    destruct (positive_digits_head p) as (c & rest & E & _).
    pose proof (parseDigits_positive p) as P. rewrite E in *.
    unfold Atoi. change (isSign "-") with true. cbv iota. rewrite P.
    reflexivity.
Qed.

(** X1. [Atoi] reads the decimal form that [%d] prints of a number back to
    that number, for every number in the range of [int]. *)
Theorem Atoi_formatInt (n : Z) :
  minInt <= n <= maxInt -> Atoi (formatInt n) = Ok n.
Proof.
  intros [Hlo Hhi]. rewrite Atoi_formatInt_cases.
  apply Z.leb_le in Hlo, Hhi. now rewrite Hlo, Hhi.
Qed.

Lemma Atoi_formatInt_witness :
  minInt <= -9223372036854775808 <= maxInt /\
  Atoi (formatInt (-9223372036854775808)) = Ok (-9223372036854775808).
Proof.
  assert (H : minInt <= -9223372036854775808 <= maxInt)
    by (unfold minInt, maxInt; lia).
  exact (conj H (Atoi_formatInt (-9223372036854775808) H)).
Defined.

(** ** strings.Contains *)

Lemma prefix_app (a s : string) :
  prefix a s = true <-> exists rest, s = a ++ rest.
Proof.
  revert s. induction a as [|x a IH]; intros s.
  - destruct s; cbn; split; eauto.
  - destruct s as [|y s]; cbn.
    + split; [discriminate|]. intros [rest H]. discriminate.
    + destruct (ascii_dec x y) as [->|Hne].
      * rewrite IH. split; intros [rest H]; exists rest; congruence.
      * split; [discriminate|]. intros [rest H]. congruence.
Qed.

(** [Contains] holds exactly of the strings that have the pattern between a
    front and a back part. *)
Lemma Contains_split (s sub : string) :
  Contains s sub = true <-> exists front back, s = front ++ sub ++ back.
Proof.
  induction s as [|c s IH]; cbn [Contains]; rewrite orb_true_iff, prefix_app.
  - split.
    + intros [[rest H]|H]; [|discriminate]. exists "", rest. exact H.
    + intros (front & back & H). left. exists back.
      destruct front; [exact H|discriminate].
  - rewrite IH. split.
    + intros [[rest H]|(front & back & H)].
      * exists "", rest. exact H.
      * exists (String c front), back. cbn. now rewrite H.
    + intros (front & back & H). destruct front as [|x front].
      * left. exists back. exact H.
      * right. injection H as _ H. eauto.
Qed.

(** ** authMiddleware on every path *)

Section GatewayPaths.

Variable Ctx : Type.
Variable next : Handler Ctx.
Variable auth : Auth Ctx.
Variable cfg : ProjectorConfig.
Variable net : Network Ctx.
Variable background : Ctx.

Local Abbreviation gateway :=
  (authMiddleware next auth cfg net background newResponseWriter).

Ltac gateway_cases r :=
  unfold authMiddleware, NewRequest;
  destruct (Authenticate auth r) as [ctx|] eqn:Hauth; cbv iota beta;
  [destruct (Atoi (PathValue r "id")) as [id|] eqn:Hid; cbv iota beta;
   [destruct (urlParses net (restrictionUrl cfg (FromContext auth ctx)))
      eqn:Hurl; cbv iota beta;
    [match goal with
     | |- context [Do net ?q] =>
         destruct (Do net q) as [resp|] eqn:Hdo; cbv iota beta;
         [destruct (StatusCode resp =? StatusOK) eqn:Hcode; cbn [negb];
          cbv iota beta;
          [destruct (ReadAll resp) as [b [rerr|]] eqn:Hread;
           cbn [isSome orb]; cbv iota beta;
           [|destruct (Contains b (permissionMarker id)) eqn:Hmark;
             cbn [negb]; cbv iota beta;
             [destruct (Close resp) eqn:Hclose|]]
          |]
         |]
     end
    |]
   |]
  |].

(** X2. Whenever the wrapped handler is invoked, the request was
    authenticated, its id parsed, exactly one call went to the restriction
    service, the answer had status 200, was read without error and held the
    marker for that id; and the handler got the request with the
    authenticated context. *)
Theorem handler_only_after_authorization (r served_r : Request Ctx) :
  In served_r (served (trace (gateway r))) ->
  exists ctx id req resp front back,
    Authenticate auth r = Ok ctx /\
    Atoi (PathValue r "id") = Ok id /\
    served_r = WithContext r ctx /\
    served (trace (gateway r)) = [WithContext r ctx] /\
    restrictionCalls (trace (gateway r)) = [req] /\
    Do net req = Ok resp /\
    StatusCode resp = StatusOK /\
    ReadAll resp = (front ++ permissionMarker id ++ back, None).
Proof.
  gateway_cases r; rewrite ?writeResponse_fresh, ?reject_served;
    cbn [trace served restrictionCalls app In];
    try contradiction;
    (intros [<-|[]];
     apply Contains_split in Hmark; destruct Hmark as (front & back & ->);
     apply Z.eqb_eq in Hcode;
     eexists ctx, id, _, resp, front, back;
     repeat split; [exact Hdo | exact Hcode | exact Hread]).
Qed.

(** X3. Every run of the gateway either hands the untouched response to the
    wrapped handler, or does not invoke it and leaves a reply whose body is
    one error line [{"error": true, "msg": "<msg>"}] with one of the five
    messages of the gateway, or no body at all.  There is no body only when
    the restriction service answered with a status under which the writer
    refuses one (101, 204, 304: the status is passed on and the refusal is
    logged) or with a status outside 100..999 (the handler panics and
    nothing is written). *)
Theorem reply_is_handler_or_error_line (r : Request Ctx) :
  (exists ctx,
      served (trace (gateway r)) = [WithContext r ctx] /\
      response (gateway r) = next newResponseWriter (WithContext r ctx))
  \/
  (served (trace (gateway r)) = [] /\
   ((wroteHeader (response (gateway r)) = true /\
     exists msg,
       In msg gatewayErrors /\
       body (response (gateway r)) = errorJSON msg ++ nl)
    \/
    (body (response (gateway r)) = "" /\
     exists req resp,
       restrictionCalls (trace (gateway r)) = [req] /\
       Do net req = Ok resp /\
       (((StatusCode resp = 101 \/ StatusCode resp = 204 \/
          StatusCode resp = 304) /\
         status (response (gateway r)) = StatusCode resp /\
         In (LogErr "writing response") (trace (gateway r)))
        \/
        ((StatusCode resp < 100 \/ 999 < StatusCode resp) /\
         wroteHeader (response (gateway r)) = false /\
         exists p, In (Panic p) (trace (gateway r))))))).
Proof.
  gateway_cases r; rewrite ?writeResponse_fresh;
    try (left; eexists; split; reflexivity);
    right; rewrite ?reject_served; (split; [reflexivity|]);
    try (left; (split; [reflexivity|]);
         eexists; (split; [|reflexivity]); cbn; tauto).
  destruct (status_classes (StatusCode resp))
    as [Hout|[[Hrange H101]|[Hno|(Hrange & H204 & H304)]]].
  - right. rewrite (reject_panics _ _ _ (StatusCode resp)) by exact Hout.
    split; [reflexivity|]. do 2 eexists. split; [reflexivity|].
    split; [exact Hdo|]. right. split; [exact Hout|].
    split; [reflexivity|]. eexists. right. left. reflexivity.
  - left. rewrite (reject_informational _ _ _ (StatusCode resp)) by assumption.
    split; [reflexivity|]. eexists. split; [|reflexivity]. cbn. tauto.
  - right. rewrite (reject_without_body _ _ _ (StatusCode resp)) by exact Hno.
    split; [reflexivity|]. do 2 eexists. split; [reflexivity|].
    split; [exact Hdo|]. left. split; [exact Hno|].
    split; [reflexivity|]. right. left. reflexivity.
  - left. rewrite (reject_with_body _ _ _ (StatusCode resp)) by assumption.
    split; [reflexivity|]. eexists. split; [|reflexivity]. cbn. tauto.
Qed.

(** X4. The gateway calls the restriction service at most once for a
    request, never without authentication and a parsed id, and never invokes
    the wrapped handler without having made that call. *)
Theorem at_most_one_restriction_call (r : Request Ctx) :
  (List.length (restrictionCalls (trace (gateway r))) <= 1)%nat /\
  (List.length (served (trace (gateway r))) <= 1)%nat /\
  (restrictionCalls (trace (gateway r)) = [] ->
   served (trace (gateway r)) = []) /\
  (restrictionCalls (trace (gateway r)) <> [] ->
   exists ctx id,
     Authenticate auth r = Ok ctx /\ Atoi (PathValue r "id") = Ok id).
Proof.
  gateway_cases r; rewrite ?writeResponse_fresh, ?reject_served, ?reject_calls;
    cbn [trace served restrictionCalls app List.length];
    repeat split; auto; try discriminate;
    try (intros H; now elim H); eauto.
Qed.

(** X5. An id that is an integer but does not fit Go's [int] is answered
    like one that is no integer: 400, and no call to the restriction
    service or to the wrapped handler. *)
Theorem out_of_range_id_rejected (r : Request Ctx) (ctx : Ctx) (n : Z) :
  Authenticate auth r = Ok ctx ->
  PathValue r "id" = formatInt n ->
  n < minInt \/ maxInt < n ->
  status (response (gateway r)) = StatusBadRequest /\
  body (response (gateway r)) = errorJSON "Projector id invalid" ++ nl /\
  trace (gateway r) = [].
Proof.
  intros Hauth Hpath Hrange.
  apply (invalid_id_rejected Ctx next auth cfg net background r ctx
           "strconv.Atoi: value out of range" Hauth).
  rewrite Hpath, Atoi_formatInt_cases.
  destruct (minInt <=? n) eqn:Hlo; [|reflexivity].
  destruct (n <=? maxInt) eqn:Hhi; [|reflexivity].
  apply Z.leb_le in Hlo, Hhi. lia.
Qed.

(** X17. The id the gateway forwards to the restriction service is the
    number [Atoi] read from the path, which fits Go's [int]; the body names
    it in the decimal form that [Atoi] reads back to the same number, so the
    ways of writing one id in the path all lead to the same call. *)
Theorem forwarded_id_is_parsed_id (r req : Request Ctx) :
  In req (restrictionCalls (trace (gateway r))) ->
  exists ctx id,
    Authenticate auth r = Ok ctx /\
    Atoi (PathValue r "id") = Ok id /\
    minInt <= id <= maxInt /\
    Atoi (formatInt id) = Ok id /\
    Body req = restrictionBody id /\
    URL req = restrictionUrl cfg (FromContext auth ctx).
Proof.
  gateway_cases r; rewrite ?writeResponse_fresh, ?reject_calls;
    cbn [trace restrictionCalls app In]; try contradiction;
    intros [<-|[]]; exists ctx, id;
    pose proof (Atoi_range _ _ Hid) as Hrange;
    (split; [reflexivity|]); (split; [reflexivity|]); (split; [exact Hrange|]);
    (split; [|split; reflexivity]);
    rewrite Atoi_formatInt_cases; destruct Hrange as [Hlo Hhi];
    apply Z.leb_le in Hlo, Hhi; rewrite Hlo, Hhi; reflexivity.
Qed.

End GatewayPaths.

Lemma forwarded_id_is_parsed_id_witness :
  let r := Sample.getRequest "+007" in
  let out := authMiddleware Sample.snapshot Sample.user3 Sample.gatewayCfg
               (Sample.answers 200 Sample.projector7) tt newResponseWriter r in
  exists req,
    In req (restrictionCalls (trace out)) /\
    exists ctx id,
      Authenticate Sample.user3 r = Ok ctx /\
      Atoi (PathValue r "id") = Ok id /\
      minInt <= id <= maxInt /\
      Atoi (formatInt id) = Ok id /\
      Body req = restrictionBody id /\
      URL req = restrictionUrl Sample.gatewayCfg (FromContext Sample.user3 ctx).
Proof.
  eexists.
  refine ((fun H => conj H (forwarded_id_is_parsed_id unit Sample.snapshot
                              Sample.user3 Sample.gatewayCfg
                              (Sample.answers 200 Sample.projector7) tt
                              (Sample.getRequest "+007") _ H)) _).
  left. reflexivity.
Defined.

Lemma handler_only_after_authorization_witness :
  let r := Sample.getRequest "7" in
  let out := authMiddleware Sample.snapshot Sample.user3 Sample.gatewayCfg
               (Sample.answers 200 Sample.projector7) tt newResponseWriter r in
  In (WithContext r tt) (served (trace out)) /\
  exists ctx id req resp front back,
    Authenticate Sample.user3 r = Ok ctx /\
    Atoi (PathValue r "id") = Ok id /\
    WithContext r tt = WithContext r ctx /\
    served (trace out) = [WithContext r ctx] /\
    restrictionCalls (trace out) = [req] /\
    Do (Sample.answers 200 Sample.projector7) req = Ok resp /\
    StatusCode resp = StatusOK /\
    ReadAll resp = (front ++ permissionMarker id ++ back, None).
Proof.
  assert (H : In (WithContext (Sample.getRequest "7") tt)
                (served (trace (authMiddleware Sample.snapshot Sample.user3
                   Sample.gatewayCfg (Sample.answers 200 Sample.projector7) tt
                   newResponseWriter (Sample.getRequest "7")))))
    by (left; reflexivity).
  exact (conj H (handler_only_after_authorization unit Sample.snapshot
                   Sample.user3 Sample.gatewayCfg
                   (Sample.answers 200 Sample.projector7) tt
                   (Sample.getRequest "7") _ H)).
Defined.

Lemma out_of_range_id_rejected_witness :
  let r := Sample.getRequest "9223372036854775808" in
  let out := authMiddleware Sample.snapshot Sample.user3 Sample.gatewayCfg
               (Sample.answers 200 Sample.projector7) tt newResponseWriter r in
  isInteger (PathValue r "id") = true /\
  status (response out) = StatusBadRequest /\
  body (response out) = errorJSON "Projector id invalid" ++ nl /\
  trace out = [].
Proof.
  split; [reflexivity|].
  refine (out_of_range_id_rejected unit Sample.snapshot Sample.user3
            Sample.gatewayCfg (Sample.answers 200 Sample.projector7) tt
            (Sample.getRequest "9223372036854775808") tt 9223372036854775808
            eq_refl eq_refl _).
  right. unfold maxInt. lia.
Defined.

(** ** registerRoutes *)

(** X6. Of the routes [registerRoutes] installs, only the health check
    answers a request that fails authentication: it is served by one call of
    the health handler; on every other route such a request gets 401, and
    neither the restriction service nor the handler behind the route is
    called. *)
Theorem only_health_is_public (Ctx : Type) (s : Dispatcher.projectorHttp Ctx)
    (cfg : ProjectorConfig) (net : Network Ctx) (background : Ctx)
    (pattern : string) (route : Dispatcher.Route Ctx) (r : Request Ctx)
    (e : string) :
  In (pattern, route) (Dispatcher.registerRoutes s cfg net background) ->
  Authenticate (Dispatcher.auth s) r = Err e ->
  if String.eqb pattern "/system/projector/health"
  then route newResponseWriter r
       = {| response := Dispatcher.HealthHandler s newResponseWriter r;
            trace := [ServeHTTP r] |}
  else status (response (route newResponseWriter r)) = StatusUnauthorized /\
       body (response (route newResponseWriter r))
         = errorJSON "authenticate request failed" ++ nl /\
       trace (route newResponseWriter r) = [].
Proof.
  intros Hin Hauth. unfold Dispatcher.registerRoutes in Hin.
  cbn [In] in Hin.
  destruct Hin as [H|[H|[H|[H|[]]]]]; injection H as <- <-;
    [reflexivity| ..];
    change (String.eqb _ _) with false; cbv iota;
    unfold authMiddleware; rewrite Hauth; repeat split.
Qed.

Lemma only_health_is_public_witness :
  let s := {| Dispatcher.auth := Sample.noCookie;
              Dispatcher.HealthHandler := fun w _ => fst (Write "ok" w);
              Dispatcher.ProjectorGetHandler := Sample.snapshot;
              Dispatcher.ProjectorSubscribeHandler := Sample.snapshot;
              Dispatcher.ProjectorPreviewHandler := Sample.snapshot |} in
  let route := authMiddleware Sample.snapshot Sample.noCookie Sample.gatewayCfg
                 Sample.unreachable tt in
  let r := Sample.getRequest "7" in
  status (response (route newResponseWriter r)) = StatusUnauthorized /\
  body (response (route newResponseWriter r))
    = errorJSON "authenticate request failed" ++ nl /\
  trace (route newResponseWriter r) = [].
Proof.
  refine (only_health_is_public unit
            {| Dispatcher.auth := Sample.noCookie;
               Dispatcher.HealthHandler := fun w _ => fst (Write "ok" w);
               Dispatcher.ProjectorGetHandler := Sample.snapshot;
               Dispatcher.ProjectorSubscribeHandler := Sample.snapshot;
               Dispatcher.ProjectorPreviewHandler := Sample.snapshot |}
            Sample.gatewayCfg Sample.unreachable tt
            "/system/projector/subscribe/{id}" _ (Sample.getRequest "7")
            "no auth cookie" _ eq_refl).
  right. right. left. reflexivity.
Defined.

(** ** encodePostgresConfig, further *)

Lemma length_append (a b : string) :
  String.length (a ++ b) = (String.length a + String.length b)%nat.
Proof. induction a as [|x a IH]; cbn; [reflexivity|now rewrite IH]. Qed.

Lemma escape_length (s : string) :
  (String.length s <= String.length (escape s) <= 2 * String.length s)%nat.
Proof.
  induction s as [|x s IH]; cbn [escape String.length]; [lia|].
  rewrite length_append. unfold escapeByte.
  destruct (Ascii.eqb x "\"%char); [cbn; lia|].
  destruct (Ascii.eqb x "'"%char); cbn; lia.
Qed.

Lemma escape_plain (s : string) : plain s = true -> escape s = s.
Proof.
  induction s as [|x s IH]; [reflexivity|]. cbn [plain escape].
  intros H. apply andb_true_iff in H as [H Hs].
  apply andb_true_iff in H as [Hb Hq].
  unfold escapeByte.
  destruct (Ascii.eqb x "\"%char); [discriminate|].
  destruct (Ascii.eqb x "'"%char); [discriminate|].
  cbn. now rewrite IH.
Qed.

Lemma escape_fixed_plain (s : string) : escape s = s -> plain s = true.
Proof.
  induction s as [|x s IH]; [reflexivity|]. cbn [plain escape].
  unfold escapeByte. pose proof (escape_length s) as L.
  destruct (Ascii.eqb x "\"%char) eqn:Eb.
  - cbn. intros H. injection H as _ H.
    apply (f_equal String.length) in H. cbn in H. lia.
  - destruct (Ascii.eqb x "'"%char) eqn:Eq.
    + cbn. intros H. injection H as _ H.
      apply (f_equal String.length) in H. cbn in H. lia.
    + cbn. intros H. injection H as H. now rewrite (IH H).
Qed.

(** X7. [encodePostgresConfig] leaves a value unchanged exactly when the
    value has neither a backslash nor a single quote; in general the result
    is at least as long as the value and at most twice as long. *)
Theorem encodePostgresConfig_plain (s : string) :
  (Projectord.encodePostgresConfig s = s <-> plain s = true) /\
  (String.length s <= String.length (Projectord.encodePostgresConfig s)
   <= 2 * String.length s)%nat.
Proof.
  rewrite encodePostgresConfig_escape. split; [split|].
  - apply escape_fixed_plain.
  - apply escape_plain.
  - apply escape_length.
Qed.

(** X8. [encodePostgresConfig] loses nothing: two values with the same
    encoding are the same value. *)
Theorem encodePostgresConfig_injective (a b : string) :
  Projectord.encodePostgresConfig a = Projectord.encodePostgresConfig b ->
  a = b.
Proof.
  rewrite !encodePostgresConfig_escape. intros H.
  pose proof (readQuoted_escape a "") as Ha.
  rewrite H, readQuoted_escape in Ha. congruence.
Qed.

Lemma encodePostgresConfig_injective_witness :
  Projectord.encodePostgresConfig "it's" = Projectord.encodePostgresConfig "it's"
  /\ "it's" = "it's".
Proof.
  split; [reflexivity|].
  exact (encodePostgresConfig_injective "it's" "it's" eq_refl).
Defined.

(** ** getDatabase *)

(** A quoted value written by [escape] is read back up to its closing
    quote. *)
Lemma conninfoParse_quoted (s k v rest : string)
    (acc : list (string * string)) :
  conninfoParse (escape s ++ String "'" rest) (InQuoted k v false) acc
  = conninfoParse rest SkipToKey (acc ++ [(k, (v ++ s)%string)])%list.
Proof.
  revert v. induction s as [|x s IH]; intros v.
  - cbn. replace (v ++ "") with v; [reflexivity|].
    induction v as [|c v IHv]; cbn; congruence.
  - cbn [escape]. unfold escapeByte.
    destruct (Ascii.eqb x "\"%char) eqn:Eb.
    + apply Ascii.eqb_eq in Eb. subst x. cbn -[escape]. rewrite IH.
      unfold snoc. now rewrite append_assoc.
    + destruct (Ascii.eqb x "'"%char) eqn:Eq.
      * apply Ascii.eqb_eq in Eq. subst x. cbn -[escape]. rewrite IH.
        unfold snoc. now rewrite append_assoc.
      * cbn [append conninfoParse]. rewrite Eb, Eq. rewrite IH.
        unfold snoc. now rewrite append_assoc.
Qed.

Lemma conninfoParse_step (c : ascii) (s : string) (st : ConnState)
    (acc : list (string * string)) :
  conninfoParse (String c s) st acc
  = match st with
    | SkipToKey =>
        if isSpace c then conninfoParse s SkipToKey acc
        else if Ascii.eqb c "="%char then conninfoParse s (SkipToValue "") acc
        else conninfoParse s (InKey (String c EmptyString)) acc
    | InKey k =>
        if Ascii.eqb c "="%char then conninfoParse s (SkipToValue k) acc
        else if isSpace c then conninfoParse s (AfterKey k) acc
        else conninfoParse s (InKey (snoc k c)) acc
    | AfterKey k =>
        if isSpace c then conninfoParse s (AfterKey k) acc
        else if Ascii.eqb c "="%char then conninfoParse s (SkipToValue k) acc
        else None
    | SkipToValue k =>
        if isSpace c then conninfoParse s (SkipToValue k) acc
        else if Ascii.eqb c "'"%char then conninfoParse s (InQuoted k "" false) acc
        else if Ascii.eqb c "\"%char then conninfoParse s (InBare k "" true) acc
        else conninfoParse s (InBare k (String c EmptyString) false) acc
    | InBare k v escaped =>
        if escaped then conninfoParse s (InBare k (snoc v c) false) acc
        else if isSpace c then conninfoParse s SkipToKey (acc ++ [(k, v)])%list
        else if Ascii.eqb c "\"%char then conninfoParse s (InBare k v true) acc
        else conninfoParse s (InBare k (snoc v c) false) acc
    | InQuoted k v escaped =>
        if escaped then conninfoParse s (InQuoted k (snoc v c) false) acc
        else if Ascii.eqb c "\"%char then conninfoParse s (InQuoted k v true) acc
        else if Ascii.eqb c "'"%char
             then conninfoParse s SkipToKey (acc ++ [(k, v)])%list
        else conninfoParse s (InQuoted k (snoc v c) false) acc
    end.
Proof. reflexivity. Qed.

(** Scans the bytes of a literal, one step of the reader per byte. *)
Ltac scan_literal :=
  repeat (rewrite conninfoParse_step; cbv beta iota;
          repeat match goal with
                 | |- context [isSpace ?c] =>
                     let b := eval vm_compute in (isSpace c) in
                     change (isSpace c) with b; cbv beta iota
                 | |- context [Ascii.eqb ?c ?d] =>
                     let b := eval vm_compute in (Ascii.eqb c d) in
                     change (Ascii.eqb c d) with b; cbv beta iota
                 end).

(** The connection string of [getDatabase] holds the five values. *)
Lemma conninfo_pgAddr (user password host port dbname : string) :
  conninfo
    ("user='" ++ Projectord.encodePostgresConfig user
     ++ "' password='" ++ Projectord.encodePostgresConfig password
     ++ "' host='" ++ Projectord.encodePostgresConfig host
     ++ "' port='" ++ Projectord.encodePostgresConfig port
     ++ "' dbname='" ++ Projectord.encodePostgresConfig dbname ++ "'")
  = Some [("user", user); ("password", password); ("host", host);
          ("port", port); ("dbname", dbname)].
Proof.
  unfold conninfo. rewrite !encodePostgresConfig_escape.
  cbn [append].
  do 5 (scan_literal; rewrite conninfoParse_quoted).
  reflexivity.
Qed.

(** X9. Whenever [getDatabase] calls [database.New], the connection string
    it passes holds, read as a key/value connection string, exactly the user,
    password, host, port and database name of the configuration, whatever
    bytes they contain; the password is the content of the secrets file or,
    when the file cannot be read in development mode, [openslides]; the
    message bus address is [host:port] and the flow is the one given. *)
Theorem getDatabase_connection_settings (W : World) (cfg : config)
    (dsFlow : Flow) (pg rd : string) (f : Flow) :
  In (DatabaseNew pg rd f) (events (getDatabase W cfg dsFlow)) ->
  exists password,
    (readFile W (PostgresPasswordFile cfg) = Ok password \/
     (exists e, readFile W (PostgresPasswordFile cfg) = Err e) /\
     Development cfg = true /\ password = "openslides") /\
    conninfo pg
      = Some [("user", PostgresUser cfg); ("password", password);
              ("host", PostgresHost cfg); ("port", PostgresPort cfg);
              ("dbname", PostgresDatabase cfg)] /\
    rd = MessageBusHost cfg ++ ":" ++ MessageBusPort cfg /\
    f = dsFlow.
Proof.
  run_cases; intros H; in_cases; try discriminate;
    injection H as <- <- <-;
    match goal with
    | Hr : readFile _ _ = Ok ?p |- _ =>
        exists p; split; [left; reflexivity|];
        split; [exact (conninfo_pgAddr (PostgresUser cfg) p (PostgresHost cfg)
                         (PostgresPort cfg) (PostgresDatabase cfg))|]
    | Hr : readFile _ _ = Err ?e |- _ =>
        exists "openslides"; split; [right; eauto|];
        split; [exact (conninfo_pgAddr (PostgresUser cfg) "openslides"
                         (PostgresHost cfg) (PostgresPort cfg)
                         (PostgresDatabase cfg))|]
    end; split; reflexivity.
Qed.

Lemma getDatabase_connection_settings_witness :
  let cfg := Sample.defaults false in
  let W := Sample.healthy (cfg, None) in
  exists pg,
    In (DatabaseNew pg ":" FlowPostgres)
       (events (getDatabase W cfg FlowPostgres)) /\
    exists password,
      (readFile W (PostgresPasswordFile cfg) = Ok password \/
       (exists e, readFile W (PostgresPasswordFile cfg) = Err e) /\
       Development cfg = true /\ password = "openslides") /\
      conninfo pg
        = Some [("user", PostgresUser cfg); ("password", password);
                ("host", PostgresHost cfg); ("port", PostgresPort cfg);
                ("dbname", PostgresDatabase cfg)] /\
      ":" = MessageBusHost cfg ++ ":" ++ MessageBusPort cfg /\
      FlowPostgres = FlowPostgres.
Proof.
  eexists.
  refine ((fun H => conj H (getDatabase_connection_settings
                              (Sample.healthy (Sample.defaults false, None))
                              (Sample.defaults false) FlowPostgres _ _ _ H)) _).
  right. left. reflexivity.
Defined.

(** X10. Outside development mode, when the secrets file cannot be read
    [getDatabase] returns the error [reading password from secrets: ...]
    and never calls [database.New]. *)
Theorem getDatabase_secret_unreadable (W : World) (cfg : config)
    (dsFlow : Flow) (e : string) :
  readFile W (PostgresPasswordFile cfg) = Err e ->
  Development cfg = false ->
  outcome (getDatabase W cfg dsFlow)
    = Continue (Err ("reading password from secrets: " ++ e)) /\
  events (getDatabase W cfg dsFlow) = [ReadFile (PostgresPasswordFile cfg)].
Proof.
  intros Hread Hdev.
  unfold events, outcome, getDatabase, parseSecretsFile, bind, emit, ret.
  rewrite Hread, Hdev. split; reflexivity.
Qed.

Lemma getDatabase_secret_unreadable_witness :
  let cfg := Sample.defaults false in
  let W := {| envParse := (cfg, None); newFlowPostgres := None;
              readFile := fun _ => Err "no such file";
              databaseNew := fun _ _ _ => None;
              listenAndServe := fun _ => None |} in
  outcome (getDatabase W cfg FlowPostgres)
    = Continue (Err "reading password from secrets: no such file") /\
  events (getDatabase W cfg FlowPostgres)
    = [ReadFile "/run/secrets/postgres_password"].
Proof.
  exact (getDatabase_secret_unreadable
           {| envParse := (Sample.defaults false, None);
              newFlowPostgres := None;
              readFile := fun _ => Err "no such file";
              databaseNew := fun _ _ _ => None;
              listenAndServe := fun _ => None |}
           (Sample.defaults false) FlowPostgres "no such file"
           eq_refl eq_refl).
Defined.

(** ** run *)



(** X12. [run] starts the refresher of the vote flow exactly when the
    datastore is connected and the public-access-only flag is off; it is
    started before the database is set up, hence also in runs in which that
    fails and [run] returns an error. *)
Theorem refresher_started_iff (W : World) (cfg : config) :
  In (GoVoteConnect 1 voteErrHandler) (events (run W cfg))
  <-> newFlowPostgres W = None /\ PublicAccessOnly cfg = false.
Proof.
  split.
  - run_cases; intros H; in_cases; try discriminate; split; reflexivity.
  - intros [Hpg Hflag]. revert Hpg Hflag.
    run_cases; intros Hpg Hflag; try discriminate; cbn [In]; auto 8.
Qed.

(** X13. Whatever the outcome of the later steps, the HTTP layer always
    gets the primary flow as its own flow; the flow behind the database
    layer is the primary flow when the public-access-only flag is on, and
    otherwise the primary flow combined with the vote flow under the prefix
    [poll/live_votes]. *)
Theorem http_layer_flows (W : World) (cfg : config)
    (c : ProjectorHttp.ProjectorConfig) (db : Datastore) (ds : Flow) :
  In (ProjectorHttpNew c db ds) (events (run W cfg)) ->
  ds = FlowPostgres /\
  dataFlow db
    = (if PublicAccessOnly cfg then FlowPostgres
       else Combined FlowPostgres [("poll/live_votes", FlowVoteCount)]) /\
  c = {| ProjectorHttp.RestricterUrl := Projectord.RestricterUrl cfg |}.
Proof.
  run_cases; intros H; in_cases; try discriminate;
    injection H as <- <- <-; repeat split.
Qed.

Lemma http_layer_flows_witness :
  let cfg := Sample.defaults false in
  let W := Sample.healthy (cfg, None) in
  exists db,
    In (ProjectorHttpNew {| ProjectorHttp.RestricterUrl := "" |} db FlowPostgres)
       (events (run W cfg)) /\
    dataFlow db = Combined FlowPostgres [("poll/live_votes", FlowVoteCount)].
Proof.
  eexists.
  refine ((fun H =>
             conj H (proj1 (proj2 (http_layer_flows
                                     (Sample.healthy (Sample.defaults false, None))
                                     (Sample.defaults false) _ _ _ H)))) _).
  do 6 right. left. reflexivity.
Defined.

(** X14. When [run] returns an error, the error is a datastore or a database
    connection error, and neither the HTTP layer was set up nor the server
    started. *)
Theorem run_error_before_serving (W : World) (cfg : config) (msg : string) :
  outcome (run W cfg) = Continue (Some msg) ->
  (exists e, msg = "connecting to datastore: " ++ e \/
             msg = "connecting to database: " ++ e) /\
  (forall c db ds, ~ In (ProjectorHttpNew c db ds) (events (run W cfg))) /\
  (forall addr, ~ In (ListenAndServe addr) (events (run W cfg))).
Proof.
  run_cases; intros H; try discriminate; injection H as <-;
    (split; [eexists; first [left; reflexivity | right; reflexivity]|]);
    split; intros; intros Hin; in_cases;
    discriminate.
Qed.

Lemma run_error_before_serving_witness :
  let cfg := Sample.defaults false in
  let W := {| envParse := (cfg, None);
              newFlowPostgres := Some "connection refused";
              readFile := fun _ => Ok "secret";
              databaseNew := fun _ _ _ => None;
              listenAndServe := fun _ => None |} in
  outcome (run W cfg)
    = Continue (Some "connecting to datastore: connection refused") /\
  (forall addr, ~ In (ListenAndServe addr) (events (run W cfg))).
Proof.
  refine ((fun H =>
             conj H (proj2 (proj2 (run_error_before_serving
                      {| envParse := (Sample.defaults false, None);
                         newFlowPostgres := Some "connection refused";
                         readFile := fun _ => Ok "secret";
                         databaseNew := fun _ _ _ => None;
                         listenAndServe := fun _ => None |}
                      (Sample.defaults false) _ H)))) _).
  reflexivity.
Defined.

(** ** main *)

Ltac main_cases W :=
  unfold events, outcome, main;
  destruct (envParse W) as [cfg [err|]] eqn:Hparse;
  run_cases.

(** X15. Given that the listener, as [ListenAndServe] promises, never
    returns without an error, [main] always ends through [log.Fatal] with
    exit status 1: the record [Stopped] is never written. *)
Theorem main_always_exits_fatally (W : World) :
  (forall addr, listenAndServe W addr <> None) ->
  outcome (main W) = Exited 1 /\
  (exists out msg,
      List.last (List.removelast (events (main W))) (Exit 0)
        = Log out FatalLevel msg /\
      List.last (events (main W)) (Exit 0) = Exit 1) /\
  (forall out, ~ In (Log out InfoLevel "Stopped") (events (main W))).
Proof.
  intros Hlisten.
  assert (Hl : forall a, listenAndServe W a = None -> False)
    by (intros a Ha; exact (Hlisten a Ha)).
  main_cases W;
    try (exfalso; eapply Hl; eassumption);
    (split; [reflexivity|]); (split; [do 2 eexists; split; reflexivity|]);
    intros out Hin; in_cases; discriminate.
Qed.

Lemma main_always_exits_fatally_witness :
  let W := Sample.healthy (Sample.defaults false, None) in
  (forall addr, listenAndServe W addr <> None) /\
  outcome (main W) = Exited 1.
Proof.
  refine ((fun H =>
             conj H (proj1 (main_always_exits_fatally
                      (Sample.healthy (Sample.defaults false, None)) H))) _).
  intros addr. discriminate.
Defined.

(** X16. Every log record of the process is written to standard error in
    development mode and to standard output otherwise, except the record of
    a configuration that does not parse, which goes to standard output in
    both modes. *)
Theorem log_destination (W : World) (out : Output) (level : Level)
    (msg : string) :
  In (Log out level msg) (events (main W)) ->
  (msg = "parsing config" /\ level = ErrorLevel /\ out = Stdout) \/
  out = (if Development (fst (envParse W)) then Stderr else Stdout).
Proof.
  main_cases W; cbn [fst]; rewrite ?Heqb;
    intros H; in_cases; try discriminate;
    injection H as <- <- <-; auto.
Qed.

Lemma log_destination_witness :
  let cfg := {| Bind := ":9051"; Development := true;
                PostgresHost := "localhost"; PostgresPort := "5432";
                PostgresDatabase := "openslides"; PostgresUser := "openslides";
                PostgresPasswordFile := "/run/secrets/postgres_password";
                MessageBusHost := ""; MessageBusPort := "";
                Projectord.RestricterUrl := ""; PublicAccessOnly := false |} in
  let W := Sample.healthy (cfg, Some "parse error") in
  In (Log Stdout ErrorLevel "parsing config") (events (main W)) /\
  In (Log Stderr InfoLevel "Starting server on :9051") (events (main W)) /\
  (("Starting server on :9051" = "parsing config" /\
    InfoLevel = ErrorLevel /\ Stderr = Stdout) \/
   Stderr = (if Development (fst (envParse W)) then Stderr else Stdout)).
Proof.
  split; [left; reflexivity|].
  refine ((fun H => conj H (log_destination _ _ _ _ H)) _).
  do 9 right. left. reflexivity.
Defined.
